(** * Connection and credential lifecycle of [DataverseHelper]

    A shallow embedding of [src/helpers/dataverseHelper.ts]: the two
    persistent slots (the global connection list and the workspace's
    current connection), the connection wizard, the login dispatch, the
    refresh-then-fallback reauthentication and the deletion of stored
    connections, followed by the properties of the connection lifecycle.

    Conventions of the embedding.
    - A method is a computation [M A]: it takes the [World] (both slots and
      the log of the actions performed so far) and returns either a value
      or a raised error, together with the new world.  For an [async]
      method the raised error is the rejection of the promise it returns.
    - Everything the class imports ([utils/Constants], [login/login],
      [vscode.window], the request layer) is a field of [Host].
    - [JSON.stringify] followed by [JSON.parse] is the identity on a list
      of records whose optional fields are [option]s, so the global slot
      holds the list itself; [None] is an absent key.
    - A record is embedded as a value.  Where the code assigns to a
      record that another holder can see before it saves it, the
      assignment is written out ([assignField]); this happens in
      [connectToDataverse] only.
    - The workspace keys for entity definitions, solutions and web
      resources hold no connection and are left out of [World]; the
      requests that fill them appear in the log only, under the name of
      the entity set they query.  What the request layer does on its own
      account is outside the embedding. *)

From Stdlib Require Import String List Bool ZArith Lia.
From stdpp Require Import base tactics decidable option list strings.
Import ListNotations.

Local Open Scope string_scope.
Local Open Scope list_scope.

(** ** Data *)

(** [IConnection] of [utils/Interfaces], with the fields this class reads
    and writes.  A field the wizard may leave [undefined] is an option. *)
Record IConnection := mkConnection {
  environmentUrl : string;
  loginType : string;
  userName : option string;
  password : option string;
  tenantId : option string;
  connectionName : string;
  environmentType : option string;
  currentAccessToken : option string;
  refreshToken : option string;
}.

(** [Token] of [utils/Interfaces]: what a login returns. *)
Record Token := mkToken {
  access_token : option string;
  refresh_token : option string;
}.

#[global] Instance IConnection_eq_dec : EqDecision IConnection.
Proof. solve_decision. Defined.

#[global] Instance Token_eq_dec : EqDecision Token.
Proof. solve_decision. Defined.

(** The string enum [loginTypes] of [utils/Constants]; its four values are
    not part of the sources at hand and stay abstract. *)
Record LoginTypes := mkLoginTypes {
  UserNamePassword : string;
  ClientIdSecret : string;
  MicrosoftLogin : string;
  Azure : string;
}.

Module Placeholders.
Inductive t :=
| dataverseEnvironmentURL | logintype | userName | password
| clientId | clientSecret | tenantId | connectionName | connectionType.
End Placeholders.

Module ErrorMessages.
Inductive t :=
| dataverseEnvironmentUrlRequired | usernameRequired | passwordRequired
| clientIdRequired | clientSecretRequired | tenantIdRequired
| connNameReservedWords | connNameRequired
| connectionWithSameNameExists.
End ErrorMessages.

(** A raised JavaScript value. *)
Inductive exn :=
| TypeError (what : string)
| Failure (msg : string).

(** The completion of a call; for a promise, its settled state. *)
Inductive Res (A : Type) :=
| Ok (a : A)
| Throw (e : exn).
Arguments Ok {A} a.
Arguments Throw {A} e.

#[global] Instance exn_eq_dec : EqDecision exn.
Proof. solve_decision. Defined.

(** ** Observable actions *)

Inductive event :=
| EvShowErrorMessage (m : ErrorMessages.t)
| EvReadRefreshToken (v : option string)
| EvLoginWithRefreshToken (client url tok : string)
| EvLoginWithUsernamePassword (url : string) (un pw : option string)
| EvLoginWithClientIdSecret (url : string) (un pw tid : option string)
| EvLoginWithPrompt (client url : string)
| EvLoginWithAzure (url : string)
| EvSaveInGlobal (conns : list IConnection)
| EvUnsetFromGlobal
| EvSaveInWorkspace (c : IConnection)
| EvUnsetFromWorkspace
| EvExecuteCommand (cmd : string)
| EvRequestData (query : string).

(** The two slots of [State] this class uses for connections, and the log. *)
Record World := mkWorld {
  connectionStore : option (list IConnection);
  connectionCurrentStore : option IConnection;
  log : list event;
}.

(** ** Collaborators *)

Record Host := mkHost {
  loginTypes : LoginTypes;
  reservedWords : list string;
  customDataverseClientId : string;
  loginWithRefreshToken : string -> string -> string -> Res (option Token);
  loginWithUsernamePassword : string -> option string -> option string -> Res Token;
  loginWithClientIdSecret :
    string -> option string -> option string -> option string -> Res Token;
  loginWithPrompt : string -> bool -> string -> Res Token;
  loginWithAzure : string -> Res Token;
  showInputBox : Placeholders.t -> option string;
  showQuickPick : Placeholders.t -> option string;
  showWarningMessage : string -> option string;
  requestData : string -> Res unit;
  decodeUpn : string -> Res (option string);
}.

(** ** The monad of methods *)

Definition M (A : Type) : Type := World -> Res A * World.

Definition ret {A} (a : A) : M A := fun w => (Ok a, w).

Definition bind {A B} (m : M A) (k : A -> M B) : M B :=
  fun w => match m w with
           | (Ok a, w') => k a w'
           | (Throw e, w') => (Throw e, w')
           end.

Definition throw {A} (e : exn) : M A := fun w => (Throw e, w).

#[global] Instance M_ret : MRet M := @ret.
#[global] Instance M_bind : MBind M := fun A B k m => bind m k.
#[global] Instance M_fmap : FMap M := fun A B f m => bind m (fun a => ret (f a)).

(** [try { body } catch (err) { handler err }] *)
Definition tryCatch {A} (body : M A) (handler : exn -> M A) : M A :=
  fun w => match body w with
           | (Ok a, w') => (Ok a, w')
           | (Throw e, w') => handler e w'
           end.

(** [try { body } finally { fin }]: [fin] always runs; when it raises, its
    error replaces the completion of [body]. *)
Definition tryFinally {A} (body : M A) (fin : M unit) : M A :=
  fun w => match body w with
           | (r, w') => match fin w' with
                        | (Ok _, w'') => (r, w'')
                        | (Throw e, w'') => (Throw e, w'')
                        end
           end.

Definition emit (e : event) : M unit :=
  fun w => (Ok tt, mkWorld (connectionStore w) (connectionCurrentStore w) (log w ++ [e])).

(** A call to a collaborator: logged, then completed as the collaborator
    completes. *)
Definition call {A} (e : event) (r : Res A) : M A :=
  emit e;; fun w => (r, w).

(** *** Promises

    Calling an [async] function never raises in the caller: it hands back a
    promise, here already settled.  [await] raises the rejection of the
    promise at the point of the [await].  An [async] function whose body
    [return]s a promise settles as that promise does, and a [try] block
    around such a [return] is left before the promise is looked at. *)
Definition Promise (A : Type) : Type := Res A.

Definition callAsync {A} (f : M A) : M (Promise A) :=
  fun w => match f w with (r, w') => (Ok r, w') end.

Definition await {A} (p : Promise A) : M A := fun w => (p, w).

Definition asyncFunction {A} (body : M (Promise A)) : M A :=
  fun w => match body w with
           | (Ok p, w') => (p, w')
           | (Throw e, w') => (Throw e, w')
           end.

(** JavaScript truthiness of a [string | undefined]. *)
Definition truthy (s : option string) : bool :=
  match s with
  | Some s => negb (String.eqb s "")
  | None => false
  end.

(** [??] on a [string | undefined] *)
Definition nullish (s : option string) (d : string) : string :=
  match s with Some s => s | None => d end.

(** ** [State]: the slots *)

Definition getFromWorkspace : M (option IConnection) :=
  fun w => (Ok (connectionCurrentStore w), w).

Definition saveInWorkspace (c : IConnection) : M unit :=
  fun w => (Ok tt, mkWorld (connectionStore w) (Some c) (log w ++ [EvSaveInWorkspace c])).

Definition unsetFromWorkspace : M unit :=
  fun w => (Ok tt, mkWorld (connectionStore w) None (log w ++ [EvUnsetFromWorkspace])).

Definition getFromGlobal : M (option (list IConnection)) :=
  fun w => (Ok (connectionStore w), w).

Definition saveInGlobal (conns : list IConnection) : M unit :=
  fun w => (Ok tt, mkWorld (Some conns) (connectionCurrentStore w) (log w ++ [EvSaveInGlobal conns])).

Definition unsetFromGlobal : M unit :=
  fun w => (Ok tt, mkWorld None (connectionCurrentStore w) (log w ++ [EvUnsetFromGlobal])).

(** [State] hands out the object a slot holds, not a copy of it, as the
    memento of the editor does: an assignment to a field of the record
    read from the workspace slot shows in the slot at once, without a call
    to [saveInWorkspace].  [assignField shared c] is such an assignment
    that leaves the record as [c]; [shared] tells whether the record is the
    object of the slot. *)
Definition assignField (shared : bool) (c : IConnection) : M unit :=
  fun w =>
    (Ok tt,
     if shared then mkWorld (connectionStore w) (Some c) (log w) else w).

Definition executeCommand (cmd : string) : M unit := emit (EvExecuteCommand cmd).

Definition showErrorMessage (m : ErrorMessages.t) : M unit := emit (EvShowErrorMessage m).

(** A collaborator that computes without acting on the world. *)
Definition lift {A} (r : Res A) : M A := fun w => (r, w).

(** ** Arrays *)

(** [conns.find(p)] is [List.find p conns]. *)

(** [conns.indexOf(x, 0)], [-1] when [x] is not an element.  The argument is
    what [find] returned, [undefined] included; a parsed array has no
    [undefined] element.  JavaScript compares the elements by reference,
    the embedding by value: [indexOf_find] below shows that on the result
    of [find] both designate the position at which [find] stopped. *)
Fixpoint indexOfFrom (i : Z) (conns : list IConnection) (x : IConnection) : Z :=
  match conns with
  | [] => (-1)%Z
  | c :: rest => if decide (c = x) then i else indexOfFrom (i + 1) rest x
  end.

Definition indexOf (conns : list IConnection) (x : option IConnection) : Z :=
  match x with
  | Some x => indexOfFrom 0 conns x
  | None => (-1)%Z
  end.

(** [conns.splice(i, 1)] for [i >= 0]: the array without its element [i]. *)
Definition splice1 (conns : list IConnection) (i : Z) : list IConnection :=
  delete (Z.to_nat i) conns.

(** ** Updates of a connection object *)

Definition setCurrentAccessToken (c : IConnection) (v : option string) : IConnection :=
  mkConnection (environmentUrl c) (loginType c) (userName c) (password c) (tenantId c)
    (connectionName c) (environmentType c) v (refreshToken c).

Definition setRefreshToken (c : IConnection) (v : option string) : IConnection :=
  mkConnection (environmentUrl c) (loginType c) (userName c) (password c) (tenantId c)
    (connectionName c) (environmentType c) (currentAccessToken c) v.

Definition setUserName (c : IConnection) (v : option string) : IConnection :=
  mkConnection (environmentUrl c) (loginType c) v (password c) (tenantId c)
    (connectionName c) (environmentType c) (currentAccessToken c) (refreshToken c).

(** ** The methods of [DataverseHelper] *)

Section DataverseHelper.

Variable host : Host.

Definition byName (connName : string) (c : IConnection) : bool :=
  String.eqb (connectionName c) connName.

Definition getConnectionByName (connName : string) : M (option IConnection) :=
  connFromWS ← getFromWorkspace;
  if match connFromWS with
     | Some c => String.eqb (connectionName c) connName
     | None => false
     end
  then ret connFromWS
  else
    jsonConn ← getFromGlobal;
    match jsonConn with
    | Some conns => ret (find (byName connName) conns)
    | None => ret None
    end.

Definition saveConnection (connDetail : IConnection) : M unit :=
  existing ← getConnectionByName (connectionName connDetail);
  match existing with
  | None =>
      jsonConn ← getFromGlobal;
      match jsonConn with
      | Some conns => saveInGlobal (conns ++ [connDetail])
      | None => saveInGlobal [connDetail]
      end
  | Some _ => showErrorMessage ErrorMessages.connectionWithSameNameExists
  end.

Definition removeConnectionInternal (connName : string) : M unit :=
  jsonConn ← getFromGlobal;
  match jsonConn with
  | Some conns =>
      let resultConn := find (byName connName) conns in
      let indexConnToRemove := indexOf conns resultConn in
      let conns :=
        if (indexConnToRemove >? -1)%Z then splice1 conns indexConnToRemove
        else conns in
      if (0 <? length conns)%nat then saveInGlobal conns else unsetFromGlobal
  | None => ret tt
  end.

Definition removeConnection (connName : string) : M unit :=
  let respDeleteConfirm :=
    showWarningMessage host "Are you sure you want to delete this connection?" in
  if decide (respDeleteConfirm = Some "Yes") then removeConnectionInternal connName
  else ret tt.

Definition deleteConnection (label : string) : M unit :=
  removeConnection label;;
  executeCommand "dvdt.explorer.connections.refreshConnection".

(** The [switch] of [connectInternal]: cases are tried in source order and
    [default] shares the body of [MicrosoftLogin]. *)
Definition connectInternal (lt : string) (conn : IConnection) : M Token :=
  if String.eqb lt (UserNamePassword (loginTypes host)) then
    call (EvLoginWithUsernamePassword (environmentUrl conn) (userName conn) (password conn))
      (loginWithUsernamePassword host (environmentUrl conn) (userName conn) (password conn))
  else if String.eqb lt (ClientIdSecret (loginTypes host)) then
    call (EvLoginWithClientIdSecret (environmentUrl conn) (userName conn) (password conn)
            (tenantId conn))
      (loginWithClientIdSecret host (environmentUrl conn) (userName conn) (password conn)
         (tenantId conn))
  else if String.eqb lt (Azure (loginTypes host)) then
    call (EvLoginWithAzure (environmentUrl conn))
      (loginWithAzure host (environmentUrl conn))
  else
    call (EvLoginWithPrompt (customDataverseClientId host) (environmentUrl conn))
      (loginWithPrompt host (customDataverseClientId host) false (environmentUrl conn)).

Definition getEntityDefinitions : M unit :=
  call (EvRequestData "EntityDefinitions") (requestData host "EntityDefinitions");;
  executeCommand "dvdt.explorer.entities.loadEntities".

Definition getWebResources : M unit :=
  call (EvRequestData "webresourceset") (requestData host "webresourceset");;
  executeCommand "dvdt.explorer.webresources.loadWebResources".

Definition reloadWorkspaceConnection : M (option IConnection) :=
  connFromWS ← getFromWorkspace;
  match connFromWS with
  | Some c => getEntityDefinitions;; getWebResources;; ret (Some c)
  | None => ret None
  end.

Definition forgetCurrentWorkspaceConnection : M unit :=
  connFromWS ← getFromWorkspace;
  match connFromWS with
  | Some _ =>
      unsetFromWorkspace;;
      executeCommand "dvdt.explorer.connections.refreshConnection"
  | None => ret tt
  end.

(** [connFromWS.currentAccessToken] on a missing record is a property
    read on [undefined]. *)
Definition getTokenFromCurrentConnection : M (option string) :=
  connFromWS ← getFromWorkspace;
  match connFromWS with
  | Some c => ret (currentAccessToken c)
  | None => throw (TypeError "Cannot read properties of undefined")
  end.

(** *** [reAuthenticate]

    The method mutates the record it is given; the embedding returns the
    record as it stands when the call completes, next to the completion
    and the world.  [refreshAttempt] is the first [if], [fallbackAttempt]
    the second one with its [switch], which has no [default]. *)
Definition refreshAttempt (currentConnection : IConnection) : M (option Token) :=
  emit (EvReadRefreshToken (refreshToken currentConnection));;
  match refreshToken currentConnection with
  | Some tok =>
      if truthy (Some tok) then
        call (EvLoginWithRefreshToken (customDataverseClientId host)
                (environmentUrl currentConnection) tok)
          (loginWithRefreshToken host (customDataverseClientId host)
             (environmentUrl currentConnection) tok)
      else ret None
  | None => ret None
  end.

Definition fallbackAttempt (currentConnection : IConnection)
    (tokenResponse : option Token) : M (option Token) :=
  match tokenResponse with
  | Some t => ret (Some t)
  | None =>
      let c := currentConnection in
      if String.eqb (loginType c) (UserNamePassword (loginTypes host)) then
        Some <$> call (EvLoginWithUsernamePassword (environmentUrl c) (userName c) (password c))
          (loginWithUsernamePassword host (environmentUrl c) (userName c) (password c))
      else if String.eqb (loginType c) (ClientIdSecret (loginTypes host)) then
        Some <$> call (EvLoginWithClientIdSecret (environmentUrl c) (userName c) (password c)
                (tenantId c))
          (loginWithClientIdSecret host (environmentUrl c) (userName c) (password c)
             (tenantId c))
      else if String.eqb (loginType c) (MicrosoftLogin (loginTypes host)) then
        Some <$> call (EvLoginWithPrompt (customDataverseClientId host) (environmentUrl c))
          (loginWithPrompt host (customDataverseClientId host) false (environmentUrl c))
      else if String.eqb (loginType c) (Azure (loginTypes host)) then
        Some <$> call (EvLoginWithAzure (environmentUrl c))
          (loginWithAzure host (environmentUrl c))
      else ret None
  end.

(** The assignments under [if (tokenResponse)]. *)
Definition storeTokens (currentConnection : IConnection)
    (tokenResponse : option Token) : IConnection :=
  match tokenResponse with
  | Some t =>
      setRefreshToken (setCurrentAccessToken currentConnection (access_token t))
        (refresh_token t)
  | None => currentConnection
  end.

Definition reAuthenticate (currentConnection : IConnection)
    : World -> Res (option Token) * IConnection * World :=
  fun w =>
    match (refreshAttempt currentConnection ≫= fallbackAttempt currentConnection) w with
    | (Throw e, w') => (Throw e, currentConnection, w')
    | (Ok tokenResponse, w') =>
        let currentConnection := storeTokens currentConnection tokenResponse in
        (Ok tokenResponse, currentConnection, (saveInWorkspace currentConnection w').2)
    end.

(** *** [connectionWizard] *)

(** [if (!resp) { showErrorMessage(msg); return undefined; }] and then on
    with the answer. *)
Definition required (resp : option string) (msg : ErrorMessages.t)
    (k : string -> M (option IConnection)) : M (option IConnection) :=
  match resp with
  | Some s => if truthy (Some s) then k s else showErrorMessage msg;; ret None
  | None => showErrorMessage msg;; ret None
  end.

(** From the prompt for the name to the end of the method. *)
Definition nameAndSave (envUrlUserResponse logintypeResponse : string)
    (usernameUserResponse passwordUserResponse tenantIdResponse : option string)
    : M (option IConnection) :=
  let connNameUserResponse := showInputBox host Placeholders.connectionName in
  if truthy connNameUserResponse
     && bool_decide (nullish connNameUserResponse "" ∈ reservedWords host)
  then showErrorMessage ErrorMessages.connNameReservedWords;; ret None
  else
    required connNameUserResponse ErrorMessages.connNameRequired (fun connName =>
      let typeResponse := showQuickPick host Placeholders.connectionType in
      let conn :=
        mkConnection envUrlUserResponse logintypeResponse usernameUserResponse
          passwordUserResponse tenantIdResponse connName
          (if truthy typeResponse then typeResponse else None) None None in
      saveConnection conn;;
      ret (Some conn)).

Definition connectionWizard : M (option IConnection) :=
  required (showInputBox host Placeholders.dataverseEnvironmentURL)
    ErrorMessages.dataverseEnvironmentUrlRequired (fun envUrlUserResponse =>
  let logintypeResponse := nullish (showQuickPick host Placeholders.logintype) "" in
  let selectedLogin := logintypeResponse in
  if String.eqb selectedLogin (UserNamePassword (loginTypes host)) then
    required (showInputBox host Placeholders.userName)
      ErrorMessages.usernameRequired (fun usernameUserResponse =>
    required (showInputBox host Placeholders.password)
      ErrorMessages.passwordRequired (fun passwordUserResponse =>
    nameAndSave envUrlUserResponse logintypeResponse
      (Some usernameUserResponse) (Some passwordUserResponse) None))
  else if String.eqb selectedLogin (ClientIdSecret (loginTypes host)) then
    required (showInputBox host Placeholders.clientId)
      ErrorMessages.clientIdRequired (fun usernameUserResponse =>
    required (showInputBox host Placeholders.clientSecret)
      ErrorMessages.clientSecretRequired (fun passwordUserResponse =>
    required (showInputBox host Placeholders.tenantId)
      ErrorMessages.tenantIdRequired (fun tenantIdResponse =>
    nameAndSave envUrlUserResponse logintypeResponse
      (Some usernameUserResponse) (Some passwordUserResponse) (Some tenantIdResponse))))
  else if String.eqb selectedLogin (Azure (loginTypes host)) then
    nameAndSave envUrlUserResponse (Azure (loginTypes host)) None None None
  else
    nameAndSave envUrlUserResponse (MicrosoftLogin (loginTypes host)) None None None).

(** *** [addConnection] *)

(** The [try] block, and the [finally] block. *)
Definition addConnectionTry (conn : option IConnection) : M (option IConnection) :=
  match conn with
  | Some conn =>
      tokenResponse ← connectInternal (loginType conn) conn;
      let conn := setCurrentAccessToken conn (access_token tokenResponse) in
      let conn := setRefreshToken conn (refresh_token tokenResponse) in
      saveInWorkspace conn;;
      ret (Some conn)
  | None => ret None
  end.

Definition addConnectionFinally : M unit :=
  executeCommand "dvdt.explorer.connections.refreshConnection";;
  reloadWorkspaceConnection;;
  ret tt.

Definition addConnection : M (option IConnection) :=
  conn ← connectionWizard;
  tryFinally
    (tryCatch (addConnectionTry conn) (fun err => throw err))
    addConnectionFinally.

(** *** [connectToDataverse] *)

(** Whether [getConnectionByName] hands out the object of the workspace
    slot: it does when the slot holds a record of that name, and a record
    parsed from the stored list otherwise. *)
Definition sharesWorkspaceObject (connName : string) : M bool :=
  connFromWS ← getFromWorkspace;
  ret (match connFromWS with
       | Some c => String.eqb (connectionName c) connName
       | None => false
       end).

(** The task handed to [withProgress].  The progress reports and the
    listener for a cancellation act on neither slot and are left out.
    The three assignments are made on the record that was resolved. *)
Definition connectTask (shared : bool) (conn : IConnection) : M (option IConnection) :=
  tokenResponse ← connectInternal (loginType conn) conn;
  let conn := setCurrentAccessToken conn (access_token tokenResponse) in
  assignField shared conn;;
  conn ← (match access_token tokenResponse with
          | Some tok =>
              if truthy (Some tok) then
                upn ← lift (decodeUpn host tok);
                let conn := setUserName conn upn in
                assignField shared conn;;
                ret conn
              else ret conn
          | None => ret conn
          end);
  let conn := setRefreshToken conn (refresh_token tokenResponse) in
  assignField shared conn;;
  saveInWorkspace conn;;
  getEntityDefinitions;;
  getWebResources;;
  executeCommand "dvdt.explorer.connections.refreshConnection";;
  ret (Some conn).

(** [vscode.window.withProgress(options, task)] runs the task and returns
    the thenable the task returned. *)
Definition withProgress {A} (task : M A) : M (Promise A) := callAsync task.

(** The [try] block [return]s the promise of [withProgress] without an
    [await], so the block is left with the promise as a value; the
    [catch] sees what is raised while the block runs. *)
Definition connectToDataverse (label : string) : M (option IConnection) :=
  asyncFunction
    (tryCatch
       (shared ← sharesWorkspaceObject label;
        conn ← getConnectionByName label;
        match conn with
        | Some conn => withProgress (connectTask shared conn)
        | None => ret (Ok None)
        end)
       (fun err => ret (Ok None))).

End DataverseHelper.

(** ** Deleting every connection *)

(** [array.forEach(f)] with a callback that is not [async]: the calls are
    made in the order of the array, and what one of them raises ends the
    loop. *)
Fixpoint forEach {A} (f : A -> M unit) (l : list A) : M unit :=
  match l with
  | [] => ret tt
  | x :: rest => f x;; forEach f rest
  end.

Section DeleteAll.

Variable host : Host.

(** The loop runs over the array parsed before the first removal, while
    each removal reads the stored list anew. *)
Definition removeAllConnections : M unit :=
  let respDeleteConfirm :=
    showWarningMessage host "Are you sure you want to delete ALL connections?" in
  if decide (respDeleteConfirm = Some "Yes") then
    jsonConn ← getFromGlobal;
    match jsonConn with
    | Some conns => forEach (fun c => removeConnectionInternal (connectionName c)) conns
    | None => ret tt
    end
  else ret tt.

Definition deleteAllConnections : M unit :=
  removeAllConnections;;
  executeCommand "dvdt.explorer.connections.refreshConnection".

End DeleteAll.

(** ** Vocabulary of the properties *)

(** The registry as a list: an absent key holds no record. *)
Definition registry (w : World) : list IConnection :=
  match connectionStore w with
  | Some conns => conns
  | None => []
  end.

Definition named (connName : string) (c : IConnection) : Prop :=
  connectionName c = connName.

(** [o] is the first record of [conns] called [connName], or nothing when
    no record has that name. *)
Definition firstNamed (connName : string) (conns : list IConnection)
    (o : option IConnection) : Prop :=
  match o with
  | Some r =>
      ∃ l1 l2, conns = l1 ++ r :: l2 ∧ named connName r
               ∧ Forall (fun x => ¬ named connName x) l1
  | None => Forall (fun x => ¬ named connName x) conns
  end.

(** [rest] is [conns] without its first record called [connName]. *)
Inductive removedFirst (connName : string)
    : list IConnection -> list IConnection -> Prop :=
| removed_first l1 r l2 :
    Forall (fun x => ¬ named connName x) l1 ->
    named connName r ->
    removedFirst connName (l1 ++ r :: l2) (l1 ++ l2)
| removed_none l :
    Forall (fun x => ¬ named connName x) l ->
    removedFirst connName l l.

(** The events a method appended to the log of [w]. *)
Definition appended (w w' : World) (evs : list event) : Prop :=
  log w' = log w ++ evs.

(** The four values of the enum. *)
Definition allLoginTypes (lt : LoginTypes) : list string :=
  [UserNamePassword lt; ClientIdSecret lt; MicrosoftLogin lt; Azure lt].

(** A completion that carries no token: [undefined] or a raised error. *)
Definition noToken (r : Res (option Token)) : Prop := ∀ t, r ≠ Ok (Some t).

(** The four credential schemes, under the names of the specification. *)
Inductive Scheme :=
| PasswordCredential | ClientCredential | InteractiveBrowser | PlatformDelegated.

(** The value of the enum that stands for a scheme. *)
Definition tagOf (lt : LoginTypes) (s : Scheme) : string :=
  match s with
  | PasswordCredential => UserNamePassword lt
  | ClientCredential => ClientIdSecret lt
  | InteractiveBrowser => MicrosoftLogin lt
  | PlatformDelegated => Azure lt
  end.

(** The call by which a scheme logs a record in, and the call of the
    refresh exchange. *)
Definition strategyCall (host : Host) (c : IConnection) (s : Scheme) : event :=
  match s with
  | PasswordCredential =>
      EvLoginWithUsernamePassword (environmentUrl c) (userName c) (password c)
  | ClientCredential =>
      EvLoginWithClientIdSecret (environmentUrl c) (userName c) (password c) (tenantId c)
  | InteractiveBrowser =>
      EvLoginWithPrompt (customDataverseClientId host) (environmentUrl c)
  | PlatformDelegated => EvLoginWithAzure (environmentUrl c)
  end.

(** How the login of a scheme completes for a record. *)
Definition strategyOutcome (host : Host) (c : IConnection) (s : Scheme) : Res Token :=
  match s with
  | PasswordCredential =>
      loginWithUsernamePassword host (environmentUrl c) (userName c) (password c)
  | ClientCredential =>
      loginWithClientIdSecret host (environmentUrl c) (userName c) (password c) (tenantId c)
  | InteractiveBrowser =>
      loginWithPrompt host (customDataverseClientId host) false (environmentUrl c)
  | PlatformDelegated => loginWithAzure host (environmentUrl c)
  end.

Definition refreshCall (host : Host) (c : IConnection) (tok : string) : event :=
  EvLoginWithRefreshToken (customDataverseClientId host) (environmentUrl c) tok.

(** The calls to [login/login] among the events. *)
Definition loginCall (e : event) : option event :=
  match e with
  | EvLoginWithRefreshToken _ _ _ | EvLoginWithUsernamePassword _ _ _
  | EvLoginWithClientIdSecret _ _ _ _ | EvLoginWithPrompt _ _
  | EvLoginWithAzure _ => Some e
  | _ => None
  end.

(** The logins of the four schemes among the events. *)
Definition schemeCall (e : event) : option event :=
  match e with
  | EvLoginWithUsernamePassword _ _ _ | EvLoginWithClientIdSecret _ _ _ _
  | EvLoginWithPrompt _ _ | EvLoginWithAzure _ => Some e
  | _ => None
  end.

(** The steps whose order the flows fix. *)
Inductive Step :=
| RegistryWrite | Authentication | OverlayWrite
| RefreshTokenRead | RefreshAttempt | FallbackAttempt.

Definition creationStep (e : event) : option Step :=
  match e with
  | EvSaveInGlobal _ => Some RegistryWrite
  | EvLoginWithUsernamePassword _ _ _ | EvLoginWithClientIdSecret _ _ _ _
  | EvLoginWithPrompt _ _ | EvLoginWithAzure _ => Some Authentication
  | EvSaveInWorkspace _ => Some OverlayWrite
  | _ => None
  end.

Definition reauthenticationStep (e : event) : option Step :=
  match e with
  | EvReadRefreshToken _ => Some RefreshTokenRead
  | EvLoginWithRefreshToken _ _ _ => Some RefreshAttempt
  | EvLoginWithUsernamePassword _ _ _ | EvLoginWithClientIdSecret _ _ _ _
  | EvLoginWithPrompt _ _ | EvLoginWithAzure _ => Some FallbackAttempt
  | EvSaveInWorkspace _ => Some OverlayWrite
  | _ => None
  end.

(** Every occurrence of step [a] comes strictly before every occurrence
    of step [b]. *)
Definition precedes (a b : Step) (steps : list Step) : Prop :=
  ∀ i j, steps !! i = Some a -> steps !! j = Some b -> (i < j)%nat.

(** What a step of the wizard may do to the world: it appends to the log,
    writes the global list at most once and leaves the workspace slot. *)
Definition wizardEffect (w w' : World) : Prop :=
  connectionCurrentStore w' = connectionCurrentStore w
  ∧ ∃ evs, appended w w' evs
           ∧ omap creationStep evs `sublist_of` [RegistryWrite]
           ∧ omap reauthenticationStep evs = [].

(** The names the registry holds, in its order; the registry keeps one
    record per name when they are pairwise distinct. *)
Definition names (conns : list IConnection) : list string :=
  map connectionName conns.

(** A record as the wizard makes them for a scheme: the credentials the
    scheme needs are filled in and the others are absent. *)
Definition credentialsFor (s : Scheme) (c : IConnection) : Prop :=
  match s with
  | PasswordCredential =>
      truthy (userName c) = true ∧ truthy (password c) = true ∧ tenantId c = None
  | ClientCredential =>
      truthy (userName c) = true ∧ truthy (password c) = true
      ∧ truthy (tenantId c) = true
  | InteractiveBrowser | PlatformDelegated =>
      userName c = None ∧ password c = None ∧ tenantId c = None
  end.

(** A record without tokens. *)
Definition tokenless (c : IConnection) : Prop :=
  currentAccessToken c = None ∧ refreshToken c = None.

(** The world after a method gave up with one message to the user and
    nothing else. *)
Definition aborted (w w' : World) : Prop :=
  ∃ m, w' = mkWorld (connectionStore w) (connectionCurrentStore w)
              (log w ++ [EvShowErrorMessage m]).

(** A record as the wizard hands it out. *)
Definition wellFormed (host : Host) (c : IConnection) : Prop :=
  (∃ s, loginType c = tagOf (loginTypes host) s ∧ credentialsFor s c)
  ∧ truthy (Some (environmentUrl c)) = true
  ∧ truthy (Some (connectionName c)) = true
  ∧ (connectionName c ∉ reservedWords host)
  ∧ tokenless c.

(** The record of [connectToDataverse] once the access token and, when
    that token is non-empty, the user name decoded from it are set; the
    decoding may raise. *)
Definition withUpn (host : Host) (c : IConnection) (t : Token) : Res IConnection :=
  let c1 := setCurrentAccessToken c (access_token t) in
  match access_token t with
  | Some tok =>
      if truthy (Some tok) then
        match decodeUpn host tok with
        | Ok upn => Ok (setUserName c1 upn)
        | Throw e => Throw e
        end
      else Ok c1
  | None => Ok c1
  end.

(** Whether the name resolves to the object of the workspace slot. *)
Definition sharedWith (connName : string) (w : World) : bool :=
  match connectionCurrentStore w with
  | Some c => String.eqb (connectionName c) connName
  | None => false
  end.

(** The world after an assignment to a field of the resolved record. *)
Definition assigned (shared : bool) (c : IConnection) (w : World) : World :=
  if shared then mkWorld (connectionStore w) (Some c) (log w) else w.

(** ** Concrete hosts and records, to run the methods *)

Module Sample.

Definition tags : LoginTypes :=
  mkLoginTypes "UserNamePassword" "ClientIdSecret" "MicrosoftLogin" "Azure".

(** [token.split('.')] *)
Fixpoint splitDots (s : string) : list string :=
  match s with
  | EmptyString => [EmptyString]
  | String a rest =>
      if String.eqb (String a EmptyString) "." then EmptyString :: splitDots rest
      else match splitDots rest with
           | seg :: segs => String a seg :: segs
           | [] => [String a EmptyString]
           end
  end.

(** An access token in three segments whose second one is the base64 of
    the object with the one member [upn], "u@example.com". *)
Definition jwt : string :=
  "eyJhbGciOiJub25lIn0.eyJ1cG4iOiJ1QGV4YW1wbGUuY29tIn0.sig".

(** [JSON.parse(Buffer.from(token.split('.')[1], 'base64').toString())?.upn]
    on the tokens of the samples.  A token without a second segment makes
    [Buffer.from] raise a [TypeError]; the second segment of [jwt] decodes
    to its [upn]; a second segment the samples do not use is taken not to
    decode to JSON. *)
Definition upnOf (tok : string) : Res (option string) :=
  match splitDots tok !! 1%nat with
  | None => Throw (TypeError "The first argument must be of type string")
  | Some seg =>
      if String.eqb seg "eyJ1cG4iOiJ1QGV4YW1wbGUuY29tIn0" then Ok (Some "u@example.com")
      else Throw (Failure "SyntaxError: Unexpected token in JSON")
  end.

(** A host whose prompts answer [input] and [pick], whose refresh exchange
    completes as [refresh] and whose four logins complete as [login]. *)
Definition host (input pick : Placeholders.t -> option string)
    (refresh : Res (option Token)) (login : Res Token) : Host :=
  {| loginTypes := tags;
     reservedWords := ["connections"];
     customDataverseClientId := "client-id";
     loginWithRefreshToken := fun _ _ _ => refresh;
     loginWithUsernamePassword := fun _ _ _ => login;
     loginWithClientIdSecret := fun _ _ _ _ => login;
     loginWithPrompt := fun _ _ _ => login;
     loginWithAzure := fun _ => login;
     showInputBox := input;
     showQuickPick := pick;
     showWarningMessage := fun _ => Some "Yes";
     requestData := fun _ => Ok tt;
     decodeUpn := upnOf |}.

Definition noAnswer : Placeholders.t -> option string := fun _ => None.

(** The answers of a user who creates the connection [dev] with a
    user name and a password. *)
Definition devInput (p : Placeholders.t) : option string :=
  match p with
  | Placeholders.dataverseEnvironmentURL => Some "https://org.example.com"
  | Placeholders.userName => Some "u"
  | Placeholders.password => Some "p"
  | Placeholders.connectionName => Some "dev"
  | _ => None
  end.

Definition pickPassword (p : Placeholders.t) : option string :=
  match p with
  | Placeholders.logintype => Some "UserNamePassword"
  | _ => None
  end.

Definition token1 : Token := mkToken (Some "access-1") (Some "refresh-1").
Definition token2 : Token := mkToken (Some "access-2") None.

(** A token response whose access token is [jwt]. *)
Definition jwtToken : Token := mkToken (Some jwt) (Some "refresh-1").

(** A stored connection [dev] that has logged in once. *)
Definition dev : IConnection :=
  mkConnection "https://org.example.com" "UserNamePassword" (Some "u") (Some "p") None
    "dev" None (Some "access-0") (Some "refresh-0").

(** Another record of the same name. *)
Definition dev' : IConnection :=
  mkConnection "https://other.example.com" "Azure" None None None
    "dev" None None None.

Definition test : IConnection :=
  mkConnection "https://test.example.com" "Azure" None None None
    "test" None (Some "access-t") None.

(** A record whose login type is none of the four values. *)
Definition untagged : IConnection :=
  mkConnection "https://org.example.com" "" None None None
    "legacy" None (Some "access-0") None.

(** Hosts for a reauthentication: the refresh exchange completes as
    [refresh], every login of a scheme as [login]. *)
Definition reauthHost (refresh : Res (option Token)) (login : Res Token) : Host :=
  host noAnswer noAnswer refresh login.

(** The drafts the wizard makes of [devInput]: with the login-type prompt
    dismissed, and with user name and password picked. *)
Definition draftBrowser : IConnection :=
  mkConnection "https://org.example.com" "MicrosoftLogin" None None None
    "dev" None None None.

Definition draftPassword : IConnection :=
  mkConnection "https://org.example.com" "UserNamePassword" (Some "u") (Some "p") None
    "dev" None None None.

(** [draftPassword] once logged in with [token1]. *)
Definition signedIn : IConnection :=
  mkConnection "https://org.example.com" "UserNamePassword" (Some "u") (Some "p") None
    "dev" None (Some "access-1") (Some "refresh-1").

(** A world whose Registry already holds a connection [dev]. *)
Definition taken : World := mkWorld (Some [test; dev]) None [].

(** The answers of a user who names the connection with the reserved
    word. *)
Definition reservedInput (p : Placeholders.t) : option string :=
  match p with
  | Placeholders.connectionName => Some "connections"
  | _ => devInput p
  end.

Definition empty : World := mkWorld None None [].

End Sample.

(** ** Tactics *)

(** Unfolds the monad so that a method runs on the world at hand. *)
Ltac run :=
  unfold call, emit, lift, saveInWorkspace, saveInGlobal, unsetFromGlobal,
    unsetFromWorkspace, getFromWorkspace, getFromGlobal, executeCommand,
    showErrorMessage, throw;
  unfold fmap, M_fmap, mbind, M_bind, mret, M_ret, bind, ret; simpl.

(** Decides the comparisons of a [switch] on a tag of four distinct ones. *)
Ltac switch_on_tags :=
  repeat match goal with
    | |- context [String.eqb ?a ?a] => rewrite (String.eqb_refl a)
    | |- context [String.eqb ?a ?b] =>
        replace (String.eqb a b) with false
          by (symmetry; apply String.eqb_neq; intros E; rewrite ?E in *; tauto)
    end.

(** Settles [precedes] on a list that is written out. *)
Ltac check_precedes :=
  let i := fresh "i" in let j := fresh "j" in
  intros i j;
  do 5 (try destruct i as [|i]); do 5 (try destruct j as [|j]);
  simpl; intros; simplify_eq; lia.

(** * Properties *)

(** ** Arrays: [find], [indexOf], [splice] *)

Lemma byName_named connName c : byName connName c = true ↔ named connName c.
Proof. unfold byName, named. apply String.eqb_eq. Qed.

Lemma byName_not_named connName c : byName connName c = false ↔ ¬ named connName c.
Proof. unfold byName, named. apply String.eqb_neq. Qed.

Lemma find_firstNamed connName conns :
  firstNamed connName conns (find (byName connName) conns).
Proof.
  induction conns as [|c conns IH]; simpl.
  - constructor.
  - destruct (byName connName c) eqn:Hc.
    + exists [], conns. split; [done|]. split; [by apply byName_named | constructor].
    + apply byName_not_named in Hc.
      destruct (find (byName connName) conns) as [r|]; simpl in *.
      * destruct IH as (l1 & l2 & -> & Hr & Hl1).
        exists (c :: l1), l2. split; [done|]. split; [done|]. by constructor.
      * by constructor.
Qed.

Lemma indexOfFrom_middle i l1 r l2 :
  Forall (fun x => x ≠ r) l1 ->
  indexOfFrom i (l1 ++ r :: l2) r = (i + Z.of_nat (length l1))%Z.
Proof.
  intros H. revert i. induction H as [|x l1 Hx _ IH]; intros i; simpl.
  - rewrite decide_True by done. lia.
  - rewrite decide_False by done. rewrite IH. lia.
Qed.

(** On what [find] returned, [indexOf] is the position at which [find]
    stopped, also when an equal record sits further on in the array;
    when [find] returned [undefined] it is [-1]. *)
Lemma indexOf_find connName conns :
  match find (byName connName) conns with
  | Some r =>
      ∃ l1 l2, conns = l1 ++ r :: l2 ∧ named connName r
               ∧ Forall (fun x => ¬ named connName x) l1
               ∧ indexOf conns (Some r) = Z.of_nat (length l1)
  | None => indexOf conns None = (-1)%Z
  end.
Proof.
  pose proof (find_firstNamed connName conns) as H.
  destruct (find (byName connName) conns) as [r|]; [|done].
  destruct H as (l1 & l2 & -> & Hr & Hl1).
  exists l1, l2. repeat split; try done.
  simpl. rewrite indexOfFrom_middle; [lia|].
  eapply Forall_impl; [exact Hl1|]. intros x Hx ->. by apply Hx.
Qed.

(** The three array steps of [removeConnectionInternal] together. *)
Lemma find_indexOf_splice connName conns :
  removedFirst connName conns
    (if (indexOf conns (find (byName connName) conns) >? -1)%Z
     then splice1 conns (indexOf conns (find (byName connName) conns))
     else conns).
Proof.
  pose proof (indexOf_find connName conns) as H.
  pose proof (find_firstNamed connName conns) as F.
  destruct (find (byName connName) conns) as [r|].
  - destruct H as (l1 & l2 & -> & Hr & Hl1 & ->).
    replace (Z.of_nat (length l1) >? -1)%Z with true by (symmetry; apply Z.gtb_lt; lia).
    unfold splice1. rewrite Nat2Z.id, delete_middle. by constructor.
  - rewrite H. simpl. by constructor.
Qed.

(** ** C6: name resolution *)

(** C6.  For every target name, [getConnectionByName] leaves both slots
    alone and returns the record of the workspace slot (the Overlay) when
    that slot is filled and its record carries exactly the target name;
    in every other case it returns the first record of the global list
    (the Registry) with that name, or nothing when there is none.  So a
    name held by both is resolved to the Overlay's record. *)
Theorem getConnectionByName_overlay_first (connName : string) (w : World) :
  ∃ r, getConnectionByName connName w = (Ok r, w) ∧
       match connectionCurrentStore w with
       | Some c =>
           if decide (connectionName c = connName) then r = Some c
           else firstNamed connName (registry w) r
       | None => firstNamed connName (registry w) r
       end.
Proof.
  unfold getConnectionByName, registry, getFromWorkspace, getFromGlobal.
  unfold mbind, M_bind, bind, ret. simpl.
  destruct (connectionCurrentStore w) as [c|] eqn:Hws.
  - destruct (decide (connectionName c = connName)) as [Heq|Hne].
    + apply String.eqb_eq in Heq. rewrite Heq. by eexists.
    + apply String.eqb_neq in Hne. rewrite Hne.
      destruct (connectionStore w) as [conns|]; eexists; (split; [done|]).
      * apply find_firstNamed.
      * constructor.
  - destruct (connectionStore w) as [conns|]; eexists; (split; [done|]).
    + apply find_firstNamed.
    + constructor.
Qed.

(** The scenario of the specification: the Overlay holds a record [dev]
    and the Registry another record of that name. *)
Example getConnectionByName_shadowing :
  getConnectionByName "dev"
    (mkWorld (Some [Sample.test; Sample.dev']) (Some Sample.dev) [])
  = (Ok (Some Sample.dev), mkWorld (Some [Sample.test; Sample.dev']) (Some Sample.dev) []).
Proof. reflexivity. Qed.

Example getConnectionByName_registry :
  getConnectionByName "dev"
    (mkWorld (Some [Sample.test; Sample.dev'; Sample.dev]) (Some Sample.test) [])
  = (Ok (Some Sample.dev'),
     mkWorld (Some [Sample.test; Sample.dev'; Sample.dev]) (Some Sample.test) []).
Proof. reflexivity. Qed.

(** ** C7: deleting one connection *)

(** C7.  Once the user has confirmed, deleting a connection takes the
    first record with that name out of the global list and keeps the other
    records in their order.  When no record is left the key is unset
    instead of being written with an empty list, so that reading the key
    afterwards finds it absent.  The workspace slot is not touched. *)
Theorem removeConnection_confirmed (host : Host) (connName : string) (w : World) :
  showWarningMessage host "Are you sure you want to delete this connection?" = Some "Yes" ->
  ∃ w', removeConnection host connName w = (Ok tt, w') ∧
        connectionCurrentStore w' = connectionCurrentStore w ∧
        match connectionStore w with
        | Some conns =>
            ∃ rest, removedFirst connName conns rest ∧
                    connectionStore w' = match rest with [] => None | _ => Some rest end
        | None => connectionStore w' = None
        end ∧
        (getFromGlobal w').1 ≠ Ok (Some []).
Proof.
  intros Hyes. unfold removeConnection. rewrite Hyes.
  rewrite decide_True by done.
  unfold removeConnectionInternal, getFromGlobal.
  unfold mbind, M_bind, bind, ret. simpl.
  destruct (connectionStore w) as [conns|] eqn:Hreg.
  - pose proof (find_indexOf_splice connName conns) as Hrm.
    set (rest := if (indexOf conns (find (byName connName) conns) >? -1)%Z
                 then splice1 conns (indexOf conns (find (byName connName) conns))
                 else conns) in *.
    destruct rest as [|c rest'] eqn:Hrest; simpl.
    + eexists. split; [done|]. simpl. split; [done|]. split; [|done].
      exists []. done.
    + eexists. split; [done|]. simpl. split; [done|]. split.
      * exists (c :: rest'). done.
      * intros [=].
  - exists w. rewrite Hreg. repeat split; done.
Qed.

Lemma removeConnection_confirmed_witness :
  showWarningMessage (Sample.host Sample.noAnswer Sample.noAnswer (Ok None) (Ok Sample.token1))
    "Are you sure you want to delete this connection?" = Some "Yes"
  ∧ ∃ w', removeConnection
            (Sample.host Sample.noAnswer Sample.noAnswer (Ok None) (Ok Sample.token1))
            "dev" (mkWorld (Some [Sample.dev]) None []) = (Ok tt, w')
          ∧ connectionStore w' = None.
Proof.
  split; [reflexivity|].
  destruct (removeConnection_confirmed
              (Sample.host Sample.noAnswer Sample.noAnswer (Ok None) (Ok Sample.token1))
              "dev" (mkWorld (Some [Sample.dev]) None []) eq_refl)
    as (w' & Hrun & _ & _ & _).
  exists w'. split; [exact Hrun|].
  vm_compute in Hrun. injection Hrun as <-. reflexivity.
Defined.

(** Without the confirmation nothing is removed. *)
Lemma removeConnection_declined (host : Host) (connName : string) (w : World) :
  showWarningMessage host "Are you sure you want to delete this connection?" ≠ Some "Yes" ->
  removeConnection host connName w = (Ok tt, w).
Proof. intros H. unfold removeConnection. by rewrite decide_False. Qed.

Example removeConnection_first_of_two :
  (removeConnection
     (Sample.host Sample.noAnswer Sample.noAnswer (Ok None) (Ok Sample.token1))
     "dev" (mkWorld (Some [Sample.test; Sample.dev'; Sample.dev]) None [])).2
  = mkWorld (Some [Sample.test; Sample.dev]) None
      [EvSaveInGlobal [Sample.test; Sample.dev]].
Proof. reflexivity. Qed.

Example removeConnection_last_record :
  (removeConnection
     (Sample.host Sample.noAnswer Sample.noAnswer (Ok None) (Ok Sample.token1))
     "dev" (mkWorld (Some [Sample.dev]) None [])).2
  = mkWorld None None [EvUnsetFromGlobal].
Proof. reflexivity. Qed.

(** ** C10: the token of the current connection *)

(** C10.  With an empty workspace slot [getTokenFromCurrentConnection]
    reads a property of a missing record and raises; it raises in no other
    case.  It returns [undefined] exactly when a record is there and has
    no token. *)
Theorem getTokenFromCurrentConnection_partial (w : World) :
  (connectionCurrentStore w = None ↔
     ∃ what, getTokenFromCurrentConnection w = (Throw (TypeError what), w))
  ∧ ((getTokenFromCurrentConnection w).1 = Ok None ↔
       ∃ c, connectionCurrentStore w = Some c ∧ currentAccessToken c = None).
Proof.
  unfold getTokenFromCurrentConnection, getFromWorkspace.
  unfold mbind, M_bind, bind, ret, throw. simpl.
  destruct (connectionCurrentStore w) as [c|]; simpl.
  - split.
    + split; [done|]. intros [what [=]].
    + split.
      * intros [= H]. by exists c.
      * intros (c' & [= <-] & ->). done.
  - split.
    + split; [by eexists | done].
    + split; [done|]. by intros (c & [=] & _).
Qed.

Example getTokenFromCurrentConnection_empty :
  (getTokenFromCurrentConnection Sample.empty).1
  = Throw (TypeError "Cannot read properties of undefined").
Proof. reflexivity. Qed.

Example getTokenFromCurrentConnection_stored :
  (getTokenFromCurrentConnection (mkWorld None (Some Sample.dev) [])).1
  = Ok (Some "access-0").
Proof. reflexivity. Qed.

(** ** Reauthentication *)

Lemma tagOf_known lt s : tagOf lt s ∈ allLoginTypes lt.
Proof. destruct s; unfold allLoginTypes; simpl; rewrite !elem_of_cons; tauto. Qed.

Lemma known_tagOf lt tag : tag ∈ allLoginTypes lt -> ∃ s, tag = tagOf lt s.
Proof.
  unfold allLoginTypes. rewrite !elem_of_cons, elem_of_nil.
  intros [->|[->|[->|[->|[]]]]];
    [by exists PasswordCredential | by exists ClientCredential
    | by exists InteractiveBrowser | by exists PlatformDelegated].
Qed.

Lemma distinct_tags lt :
  NoDup (allLoginTypes lt) ->
  (UserNamePassword lt ≠ ClientIdSecret lt ∧ UserNamePassword lt ≠ MicrosoftLogin lt
   ∧ UserNamePassword lt ≠ Azure lt)
  ∧ (ClientIdSecret lt ≠ MicrosoftLogin lt ∧ ClientIdSecret lt ≠ Azure lt)
  ∧ MicrosoftLogin lt ≠ Azure lt.
Proof.
  unfold allLoginTypes. intros Hnd.
  apply NoDup_cons in Hnd as [H1 Hnd]. apply NoDup_cons in Hnd as [H2 Hnd].
  apply NoDup_cons in Hnd as [H3 _].
  rewrite !elem_of_cons in H1. rewrite !elem_of_cons in H2. rewrite !elem_of_cons in H3.
  pose proof (not_elem_of_nil (Azure lt)) as H4. tauto.
Qed.

(** With four distinct values, the [switch] of [reAuthenticate] runs the
    login of the scheme the tag stands for. *)
Lemma fallbackAttempt_dispatch host c s w :
  NoDup (allLoginTypes (loginTypes host)) ->
  loginType c = tagOf (loginTypes host) s ->
  fallbackAttempt host c None w
  = (match strategyOutcome host c s with
     | Ok t => Ok (Some t)
     | Throw e => Throw e
     end,
     mkWorld (connectionStore w) (connectionCurrentStore w)
       (log w ++ [strategyCall host c s])).
Proof.
  intros Hnd Htag. apply distinct_tags in Hnd as (H1 & H2 & H3).
  unfold fallbackAttempt. rewrite Htag.
  destruct s; simpl; switch_on_tags; run;
    match goal with
    | |- context [match ?o with Ok _ => _ | Throw _ => _ end] => by destruct o
    end.
Qed.

Lemma refreshAttempt_run host c w :
  refreshAttempt host c w
  = match refreshToken c with
    | Some tok =>
        if truthy (Some tok) then
          (loginWithRefreshToken host (customDataverseClientId host) (environmentUrl c) tok,
           mkWorld (connectionStore w) (connectionCurrentStore w)
             (log w ++ [EvReadRefreshToken (Some tok); refreshCall host c tok]))
        else
          (Ok None,
           mkWorld (connectionStore w) (connectionCurrentStore w)
             (log w ++ [EvReadRefreshToken (Some tok)]))
    | None =>
        (Ok None,
         mkWorld (connectionStore w) (connectionCurrentStore w)
           (log w ++ [EvReadRefreshToken None]))
    end.
Proof.
  unfold refreshAttempt, refreshCall.
  destruct (refreshToken c) as [tok|]; [destruct (truthy (Some tok))|]; run;
    rewrite <- ?app_assoc; reflexivity.
Qed.

(** ** C1: refresh first, the original scheme as the fallback *)

(** C1, as the code has it.  For every record whose login type is one of
    the four values of the enum (all distinct), the calls that
    [reAuthenticate] makes to the login module are, in this order: the
    refresh exchange, made when and only when the record holds a non-empty
    refresh token; then the login of the record's own scheme, made exactly
    once when no refresh exchange was made or the exchange returned no
    token, and not at all when the exchange returned a token.  An exchange
    that raises ends the call, and the scheme's login is not made. *)
Theorem reAuthenticate_calls (host : Host) (c : IConnection) (w : World) (s : Scheme) :
  NoDup (allLoginTypes (loginTypes host)) ->
  loginType c = tagOf (loginTypes host) s ->
  ∃ evs, appended w (reAuthenticate host c w).2 evs ∧
    omap loginCall evs =
      match refreshToken c with
      | Some tok =>
          if truthy (Some tok) then
            match loginWithRefreshToken host (customDataverseClientId host)
                    (environmentUrl c) tok with
            | Ok (Some _) => [refreshCall host c tok]
            | Ok None => [refreshCall host c tok; strategyCall host c s]
            | Throw _ => [refreshCall host c tok]
            end
          else [strategyCall host c s]
      | None => [strategyCall host c s]
      end.
Proof.
  intros Hnd Htag. unfold reAuthenticate, appended.
  unfold mbind at 1, M_bind at 1, bind at 1. rewrite refreshAttempt_run.
  assert (Hs : omap loginCall [strategyCall host c s] = [strategyCall host c s])
    by (by destruct s).
  destruct (refreshToken c) as [tok|]; [destruct (truthy (Some tok))|].
  - destruct (loginWithRefreshToken _ _ _ _) as [[t|]|e].
    + simpl. eexists. split; [by rewrite <- app_assoc|]. reflexivity.
    + rewrite (fallbackAttempt_dispatch host c s _ Hnd Htag).
      destruct (strategyOutcome host c s); simpl;
        (eexists; split; [by rewrite <- !app_assoc|]);
        simpl; by destruct s.
    + simpl. eexists. split; [done|]. reflexivity.
  - rewrite (fallbackAttempt_dispatch host c s _ Hnd Htag).
    destruct (strategyOutcome host c s); simpl;
      (eexists; split; [by rewrite <- !app_assoc|]);
      simpl; by destruct s.
  - rewrite (fallbackAttempt_dispatch host c s _ Hnd Htag).
    destruct (strategyOutcome host c s); simpl;
      (eexists; split; [by rewrite <- !app_assoc|]);
      simpl; by destruct s.
Qed.

Lemma reAuthenticate_calls_witness :
  NoDup (allLoginTypes (loginTypes (Sample.reauthHost (Ok None) (Ok Sample.token1))))
  ∧ loginType Sample.dev
    = tagOf (loginTypes (Sample.reauthHost (Ok None) (Ok Sample.token1))) PasswordCredential
  ∧ ∃ evs,
      appended Sample.empty
        (reAuthenticate (Sample.reauthHost (Ok None) (Ok Sample.token1))
           Sample.dev Sample.empty).2 evs
      ∧ omap loginCall evs
        = [EvLoginWithRefreshToken "client-id" "https://org.example.com" "refresh-0";
           EvLoginWithUsernamePassword "https://org.example.com" (Some "u") (Some "p")].
Proof.
  assert (Hnd : NoDup (allLoginTypes (loginTypes (Sample.reauthHost (Ok None) (Ok Sample.token1)))))
    by (apply (bool_decide_unpack _); vm_compute; reflexivity).
  split; [exact Hnd|]. split; [reflexivity|].
  exact (reAuthenticate_calls (Sample.reauthHost (Ok None) (Ok Sample.token1))
           Sample.dev Sample.empty PasswordCredential Hnd eq_refl).
Defined.

(** C1 as stated fails in two ways.  A record without a refresh token
    whose login type is none of the four values goes through the [switch]
    without a match: no login is made.  And for a record of a known scheme
    a refresh exchange that raises produces no token, yet the scheme's
    login is not made. *)
Lemma reAuthenticate_calls_counterexample :
  ¬ (∀ host c w evs,
       refreshToken c = None ->
       appended w (reAuthenticate host c w).2 evs ->
       length (omap schemeCall evs) = 1%nat)
  ∧ ¬ (∀ host c w evs,
         loginType c ∈ allLoginTypes (loginTypes host) ->
         noToken (refreshAttempt host c w).1 ->
         appended w (reAuthenticate host c w).2 evs ->
         length (omap schemeCall evs) = 1%nat).
Proof.
  split.
  - intros H.
    specialize (H (Sample.reauthHost (Ok None) (Ok Sample.token1)) Sample.untagged
                  Sample.empty _ eq_refl eq_refl).
    vm_compute in H. discriminate H.
  - intros H.
    assert (Htag : loginType Sample.dev ∈ allLoginTypes Sample.tags)
      by (apply (bool_decide_unpack _); vm_compute; reflexivity).
    assert (Hno : noToken (refreshAttempt
                             (Sample.reauthHost (Throw (Failure "network")) (Ok Sample.token1))
                             Sample.dev Sample.empty).1)
      by (intros t; vm_compute; discriminate).
    specialize (H (Sample.reauthHost (Throw (Failure "network")) (Ok Sample.token1))
                  Sample.dev Sample.empty _ Htag Hno eq_refl).
    vm_compute in H. discriminate H.
Qed.

Example reAuthenticate_untagged :
  reAuthenticate (Sample.reauthHost (Ok None) (Ok Sample.token1)) Sample.untagged Sample.empty
  = (Ok None, Sample.untagged,
     mkWorld None (Some Sample.untagged)
       [EvReadRefreshToken None; EvSaveInWorkspace Sample.untagged]).
Proof. reflexivity. Qed.

Example reAuthenticate_refresh_raises :
  reAuthenticate (Sample.reauthHost (Throw (Failure "network")) (Ok Sample.token1))
    Sample.dev Sample.empty
  = (Throw (Failure "network"), Sample.dev,
     mkWorld None None
       [EvReadRefreshToken (Some "refresh-0");
        EvLoginWithRefreshToken "client-id" "https://org.example.com" "refresh-0"]).
Proof. reflexivity. Qed.

(** The end of [reAuthenticate]: what comes back, and the record and the
    workspace slot after the call. *)
Lemma reAuthenticate_completion host c w :
  match (reAuthenticate host c w).1.1 with
  | Ok tokenResponse =>
      (reAuthenticate host c w).1.2 = storeTokens c tokenResponse
      ∧ connectionCurrentStore (reAuthenticate host c w).2
        = Some (storeTokens c tokenResponse)
  | Throw _ => (reAuthenticate host c w).1.2 = c
  end.
Proof.
  unfold reAuthenticate.
  destruct ((refreshAttempt host c ≫= fallbackAttempt host c) w) as [[o|e] w']; done.
Qed.

Lemma reAuthenticate_result host c w :
  (reAuthenticate host c w).1.1
  = match (refreshAttempt host c w).1 with
    | Ok (Some t) => Ok (Some t)
    | Ok None => (fallbackAttempt host c None (refreshAttempt host c w).2).1
    | Throw e => Throw e
    end.
Proof.
  unfold reAuthenticate. unfold mbind, M_bind, bind.
  destruct (refreshAttempt host c w) as [[[t|]|e] w1]; cbn -[fallbackAttempt]; try done.
  by destruct (fallbackAttempt host c None w1) as [[o|e] w2].
Qed.

(** ** C4: the token fields after a successful reauthentication *)

(** C4 as stated fails: a token response without a refresh token clears
    the refresh token the record held. *)
Lemma reAuthenticate_keeps_refreshToken_counterexample :
  ¬ (∀ host c w t,
       (reAuthenticate host c w).1.1 = Ok (Some t) ->
       refresh_token t = None ->
       refreshToken (reAuthenticate host c w).1.2 = refreshToken c).
Proof.
  intros H.
  specialize (H (Sample.reauthHost (Ok (Some Sample.token2)) (Ok Sample.token1))
                Sample.dev Sample.empty Sample.token2 eq_refl eq_refl).
  vm_compute in H. discriminate H.
Qed.

Example reAuthenticate_clears_refreshToken :
  refreshToken Sample.dev = Some "refresh-0"
  ∧ refreshToken
      (reAuthenticate (Sample.reauthHost (Ok (Some Sample.token2)) (Ok Sample.token1))
         Sample.dev Sample.empty).1.2 = None.
Proof. split; reflexivity. Qed.

(** C4, as the code has it.  When a reauthentication obtains a token
    response, the record's [currentAccessToken] and its [refreshToken] are
    both overwritten from the response, whatever the response holds: a
    response without a refresh token leaves the record without one.  The
    record so updated is what the workspace slot holds afterwards. *)
Theorem reAuthenticate_overwrites_tokens (host : Host) (c : IConnection) (w : World)
    (t : Token) :
  (reAuthenticate host c w).1.1 = Ok (Some t) ->
  currentAccessToken (reAuthenticate host c w).1.2 = access_token t
  ∧ refreshToken (reAuthenticate host c w).1.2 = refresh_token t
  ∧ (refresh_token t = None -> refreshToken (reAuthenticate host c w).1.2 = None)
  ∧ connectionCurrentStore (reAuthenticate host c w).2
    = Some (reAuthenticate host c w).1.2.
Proof.
  intros Hok. pose proof (reAuthenticate_completion host c w) as H.
  rewrite Hok in H. destruct H as [-> ->]. simpl.
  repeat split; done.
Qed.

Lemma reAuthenticate_overwrites_tokens_witness :
  (reAuthenticate (Sample.reauthHost (Ok (Some Sample.token2)) (Ok Sample.token1))
     Sample.dev Sample.empty).1.1 = Ok (Some Sample.token2)
  ∧ currentAccessToken
      (reAuthenticate (Sample.reauthHost (Ok (Some Sample.token2)) (Ok Sample.token1))
         Sample.dev Sample.empty).1.2 = Some "access-2"
  ∧ refreshToken
      (reAuthenticate (Sample.reauthHost (Ok (Some Sample.token2)) (Ok Sample.token1))
         Sample.dev Sample.empty).1.2 = None.
Proof.
  split; [reflexivity|].
  destruct (reAuthenticate_overwrites_tokens
              (Sample.reauthHost (Ok (Some Sample.token2)) (Ok Sample.token1))
              Sample.dev Sample.empty Sample.token2 eq_refl) as (Ha & Hr & _ & _).
  split; [exact Ha | exact Hr].
Defined.

(** ** C5: a reauthentication that obtains no token *)

(** C5.  When the refresh path yields no token and the fallback path, run
    after it, yields none either, [reAuthenticate] completes without a
    token (it returns [undefined], or raises what the failing login
    raised) and the record it was given still holds the access token and
    the refresh token it held before the call. *)
Theorem reAuthenticate_no_token (host : Host) (c : IConnection) (w : World) :
  noToken (refreshAttempt host c w).1 ->
  ((refreshAttempt host c w).1 = Ok None ->
   noToken (fallbackAttempt host c None (refreshAttempt host c w).2).1) ->
  noToken (reAuthenticate host c w).1.1
  ∧ currentAccessToken (reAuthenticate host c w).1.2 = currentAccessToken c
  ∧ refreshToken (reAuthenticate host c w).1.2 = refreshToken c.
Proof.
  intros Hrefresh Hfallback.
  assert (Hno : noToken (reAuthenticate host c w).1.1).
  { rewrite reAuthenticate_result.
    destruct (refreshAttempt host c w).1 as [[t|]|e] eqn:Hr.
    - by destruct (Hrefresh t).
    - by apply Hfallback.
    - intros t. discriminate. }
  split; [exact Hno|].
  pose proof (reAuthenticate_completion host c w) as H.
  destruct (reAuthenticate host c w).1.1 as [[t|]|e].
  - by destruct (Hno t).
  - destruct H as [-> _]. done.
  - rewrite H. done.
Qed.

Lemma reAuthenticate_no_token_witness :
  noToken (refreshAttempt (Sample.reauthHost (Ok None) (Throw (Failure "denied")))
             Sample.dev Sample.empty).1
  ∧ noToken (reAuthenticate (Sample.reauthHost (Ok None) (Throw (Failure "denied")))
               Sample.dev Sample.empty).1.1
  ∧ currentAccessToken
      (reAuthenticate (Sample.reauthHost (Ok None) (Throw (Failure "denied")))
         Sample.dev Sample.empty).1.2 = Some "access-0"
  ∧ refreshToken
      (reAuthenticate (Sample.reauthHost (Ok None) (Throw (Failure "denied")))
         Sample.dev Sample.empty).1.2 = Some "refresh-0".
Proof.
  assert (H1 : noToken (refreshAttempt (Sample.reauthHost (Ok None) (Throw (Failure "denied")))
                          Sample.dev Sample.empty).1)
    by (intros t; vm_compute; discriminate).
  split; [exact H1|].
  apply (reAuthenticate_no_token (Sample.reauthHost (Ok None) (Throw (Failure "denied")))
           Sample.dev Sample.empty H1).
  intros _ t. vm_compute. discriminate.
Defined.

Example reAuthenticate_both_paths_fail :
  reAuthenticate (Sample.reauthHost (Ok None) (Throw (Failure "denied")))
    Sample.dev Sample.empty
  = (Throw (Failure "denied"), Sample.dev,
     mkWorld None None
       [EvReadRefreshToken (Some "refresh-0");
        EvLoginWithRefreshToken "client-id" "https://org.example.com" "refresh-0";
        EvLoginWithUsernamePassword "https://org.example.com" (Some "u") (Some "p")]).
Proof. reflexivity. Qed.

(** ** The creation flow *)

Lemma getConnectionByName_pure connName w :
  ∃ r, getConnectionByName connName w = (Ok r, w).
Proof.
  unfold getConnectionByName. run.
  destruct (connectionCurrentStore w) as [c|];
    [destruct (String.eqb (connectionName c) connName)|];
    try destruct (connectionStore w); by eexists.
Qed.

Lemma wizardEffect_refl w : wizardEffect w w.
Proof.
  split; [done|]. exists []. unfold appended. rewrite app_nil_r.
  split; [done|]. split; [apply sublist_nil_l | done].
Qed.

Lemma wizardEffect_error w m :
  wizardEffect w
    (mkWorld (connectionStore w) (connectionCurrentStore w)
       (log w ++ [EvShowErrorMessage m])).
Proof.
  split; [done|]. exists [EvShowErrorMessage m].
  split; [done|]. split; [apply sublist_nil_l | done].
Qed.

Lemma saveConnection_effect c w :
  ∃ w', saveConnection c w = (Ok tt, w') ∧ wizardEffect w w'.
Proof.
  unfold saveConnection. unfold mbind at 1, M_bind at 1, bind at 1.
  destruct (getConnectionByName_pure (connectionName c) w) as [r ->].
  destruct r as [r|]; run.
  - eexists. split; [done|]. apply wizardEffect_error.
  - destruct (connectionStore w) as [conns|]; simpl;
      (eexists; split; [done|]); (split; [done|]);
      eexists; (split; [done|]); simpl; done.
Qed.

Lemma required_effect resp msg k w (P : option IConnection -> Prop) :
  P None ->
  (∀ s, ∃ o w', k s w = (Ok o, w') ∧ wizardEffect w w' ∧ P o) ->
  ∃ o w', required resp msg k w = (Ok o, w') ∧ wizardEffect w w' ∧ P o.
Proof.
  intros HP Hk. unfold required.
  destruct resp as [s|]; [destruct (truthy (Some s))|]; run.
  - apply Hk.
  - eexists _, _. split; [done|]. split; [apply wizardEffect_error | done].
  - eexists _, _. split; [done|]. split; [apply wizardEffect_error | done].
Qed.

(** The record that [nameAndSave] returns carries the login type and the
    credentials it was given and no token. *)
Lemma nameAndSave_effect host url lt u p t w :
  ∃ o w', nameAndSave host url lt u p t w = (Ok o, w') ∧ wizardEffect w w'
          ∧ ∀ conn, o = Some conn ->
              loginType conn = lt ∧ environmentUrl conn = url
              ∧ currentAccessToken conn = None ∧ refreshToken conn = None.
Proof.
  unfold nameAndSave.
  destruct (truthy (showInputBox host Placeholders.connectionName)
            && bool_decide
                 (nullish (showInputBox host Placeholders.connectionName) ""
                  ∈ reservedWords host)).
  - run. eexists _, _. split; [done|]. split; [apply wizardEffect_error | done].
  - apply required_effect; [done|]. intros connName.
    unfold mbind at 1, M_bind at 1, bind at 1.
    match goal with
    | |- context [saveConnection ?c w] =>
        destruct (saveConnection_effect c w) as (w' & -> & Heff)
    end.
    run. eexists _, _. split; [done|]. split; [done|].
    by intros conn [= <-].
Qed.

(** The wizard never raises; the record it returns carries one of the
    four values of the enum, whatever was picked. *)
Lemma connectionWizard_effect host w :
  ∃ o w', connectionWizard host w = (Ok o, w') ∧ wizardEffect w w'
          ∧ ∀ conn, o = Some conn ->
              loginType conn ∈ allLoginTypes (loginTypes host)
              ∧ currentAccessToken conn = None ∧ refreshToken conn = None.
Proof.
  unfold connectionWizard, allLoginTypes.
  apply required_effect; [done|]. intros url.
  cbv zeta.
  destruct (String.eqb _ (UserNamePassword _)) eqn:E1;
    [|destruct (String.eqb _ (ClientIdSecret _)) eqn:E2;
      [|destruct (String.eqb _ (Azure _)) eqn:E3]].
  - apply String.eqb_eq in E1.
    apply required_effect; [done|]. intros un.
    apply required_effect; [done|]. intros pw.
    destruct (nameAndSave_effect host url
                (nullish (showQuickPick host Placeholders.logintype) "")
                (Some un) (Some pw) None w) as (o & w' & -> & Heff & Hc).
    eexists _, _. split; [done|]. split; [done|].
    intros conn Ho. destruct (Hc conn Ho) as (-> & _ & ? & ?).
    rewrite E1, !elem_of_cons. tauto.
  - apply String.eqb_eq in E2.
    apply required_effect; [done|]. intros un.
    apply required_effect; [done|]. intros pw.
    apply required_effect; [done|]. intros tid.
    destruct (nameAndSave_effect host url
                (nullish (showQuickPick host Placeholders.logintype) "")
                (Some un) (Some pw) (Some tid) w) as (o & w' & -> & Heff & Hc).
    eexists _, _. split; [done|]. split; [done|].
    intros conn Ho. destruct (Hc conn Ho) as (-> & _ & ? & ?).
    rewrite E2, !elem_of_cons. tauto.
  - destruct (nameAndSave_effect host url (Azure (loginTypes host)) None None None w)
      as (o & w' & -> & Heff & Hc).
    eexists _, _. split; [done|]. split; [done|].
    intros conn Ho. destruct (Hc conn Ho) as (-> & _ & ? & ?).
    rewrite !elem_of_cons. tauto.
  - destruct (nameAndSave_effect host url (MicrosoftLogin (loginTypes host)) None None None w)
      as (o & w' & -> & Heff & Hc).
    eexists _, _. split; [done|]. split; [done|].
    intros conn Ho. destruct (Hc conn Ho) as (-> & _ & ? & ?).
    rewrite !elem_of_cons. tauto.
Qed.

(** So every record the wizard creates belongs to one of the four
    schemes. *)
Lemma connectionWizard_scheme host w conn w' :
  connectionWizard host w = (Ok (Some conn), w') ->
  ∃ s, loginType conn = tagOf (loginTypes host) s.
Proof.
  intros Hrun.
  destruct (connectionWizard_effect host w) as (o & w1 & Hrun' & _ & Hc).
  rewrite Hrun' in Hrun. injection Hrun as -> ->.
  apply known_tagOf. by apply Hc.
Qed.

(** Outside the four values the [switch] of [reAuthenticate] matches no
    case: no scheme logs in. *)
Lemma fallbackAttempt_unknown host c w :
  loginType c ∉ allLoginTypes (loginTypes host) ->
  fallbackAttempt host c None w = (Ok None, w).
Proof.
  unfold allLoginTypes. rewrite !not_elem_of_cons. intros (N1 & N2 & N3 & N4 & _).
  apply String.eqb_neq in N1, N2, N3, N4.
  unfold fallbackAttempt. cbv zeta. by rewrite N1, N2, N3, N4.
Qed.

Lemma required_some resp msg k w conn w' :
  required resp msg k w = (Ok (Some conn), w') ->
  ∃ s, k s w = (Ok (Some conn), w').
Proof.
  unfold required.
  destruct resp as [s|]; [destruct (truthy (Some s))|]; run; try discriminate.
  intros H. by exists s.
Qed.

(** ** C3: the login type when nothing usable was picked *)

(** C3 as stated fails: a wizard whose login-type prompt is dismissed
    creates a record of the interactive-browser scheme ([MicrosoftLogin]),
    not of the platform-delegated one ([Azure]). *)
Lemma connectionWizard_default_counterexample :
  ¬ (∀ host w conn w',
       nullish (showQuickPick host Placeholders.logintype) ""
         ∉ allLoginTypes (loginTypes host) ->
       connectionWizard host w = (Ok (Some conn), w') ->
       loginType conn = Azure (loginTypes host)).
Proof.
  intros H.
  assert (Hsel : nullish (showQuickPick
                            (Sample.host Sample.devInput Sample.noAnswer (Ok None)
                               (Ok Sample.token1)) Placeholders.logintype) ""
                 ∉ allLoginTypes Sample.tags)
    by (apply (bool_decide_unpack _); vm_compute; reflexivity).
  specialize (H (Sample.host Sample.devInput Sample.noAnswer (Ok None) (Ok Sample.token1))
                Sample.empty _ _ Hsel eq_refl).
  vm_compute in H. discriminate H.
Qed.

Example connectionWizard_dismissed_pick :
  (connectionWizard
     (Sample.host Sample.devInput Sample.noAnswer (Ok None) (Ok Sample.token1))
     Sample.empty).1
  = Ok (Some Sample.draftBrowser).
Proof. reflexivity. Qed.

(** C3, as the code has it.  When the selection at the login-type prompt,
    read as the empty string if the prompt was dismissed, is none of the
    four values of the enum, the record the wizard creates has the login
    type [MicrosoftLogin], the interactive-browser scheme: the [default]
    label of the [switch] sits on that case. *)
Theorem connectionWizard_default_loginType (host : Host) (w : World)
    (conn : IConnection) (w' : World) :
  nullish (showQuickPick host Placeholders.logintype) ""
    ∉ allLoginTypes (loginTypes host) ->
  connectionWizard host w = (Ok (Some conn), w') ->
  loginType conn = MicrosoftLogin (loginTypes host).
Proof.
  unfold allLoginTypes. rewrite !not_elem_of_cons. intros (N1 & N2 & N3 & N4 & _) Hrun.
  unfold connectionWizard in Hrun.
  apply required_some in Hrun as [url Hrun]. cbv zeta in Hrun.
  apply String.eqb_neq in N1, N2, N4. rewrite N1, N2, N4 in Hrun.
  destruct (nameAndSave_effect host url (MicrosoftLogin (loginTypes host)) None None None w)
    as (o & w1 & Hrun' & _ & Hc).
  rewrite Hrun' in Hrun. injection Hrun as -> ->.
  by destruct (Hc conn eq_refl) as [-> _].
Qed.

Lemma connectionWizard_default_loginType_witness :
  (nullish (showQuickPick
              (Sample.host Sample.devInput Sample.noAnswer (Ok None) (Ok Sample.token1))
              Placeholders.logintype) ""
     ∉ allLoginTypes
         (loginTypes (Sample.host Sample.devInput Sample.noAnswer (Ok None) (Ok Sample.token1))))
  ∧ connectionWizard
      (Sample.host Sample.devInput Sample.noAnswer (Ok None) (Ok Sample.token1))
      Sample.empty
    = (Ok (Some Sample.draftBrowser),
       mkWorld (Some [Sample.draftBrowser]) None [EvSaveInGlobal [Sample.draftBrowser]])
  ∧ loginType Sample.draftBrowser = "MicrosoftLogin".
Proof.
  assert (Hsel : nullish (showQuickPick
                            (Sample.host Sample.devInput Sample.noAnswer (Ok None)
                               (Ok Sample.token1)) Placeholders.logintype) ""
                 ∉ allLoginTypes
                     (loginTypes (Sample.host Sample.devInput Sample.noAnswer (Ok None)
                                    (Ok Sample.token1))))
    by (apply (bool_decide_unpack _); vm_compute; reflexivity).
  split; [exact Hsel|]. split; [reflexivity|].
  exact (connectionWizard_default_loginType
           (Sample.host Sample.devInput Sample.noAnswer (Ok None) (Ok Sample.token1))
           Sample.empty Sample.draftBrowser
           (mkWorld (Some [Sample.draftBrowser]) None [EvSaveInGlobal [Sample.draftBrowser]])
           Hsel eq_refl).
Defined.

Lemma appended_trans w1 w2 w3 evs evs' :
  appended w1 w2 evs -> appended w2 w3 evs' -> appended w1 w3 (evs ++ evs').
Proof. unfold appended. intros H1 H2. by rewrite H2, H1, app_assoc. Qed.

(** [connectInternal] makes exactly one call, the login of a scheme. *)
Lemma connectInternal_effect host lt c w :
  ∃ r e, connectInternal host lt c w
         = (r, mkWorld (connectionStore w) (connectionCurrentStore w) (log w ++ [e]))
         ∧ schemeCall e = Some e.
Proof.
  unfold connectInternal.
  destruct (String.eqb lt (UserNamePassword _));
    [|destruct (String.eqb lt (ClientIdSecret _));
      [|destruct (String.eqb lt (Azure _))]];
    run; by eexists _, _.
Qed.

Lemma schemeCall_creationStep e :
  schemeCall e = Some e -> creationStep e = Some Authentication.
Proof. by destruct e. Qed.

Lemma addConnectionTry_effect host o w :
  ∃ r w' evs, addConnectionTry host o w = (r, w') ∧ appended w w' evs
              ∧ omap creationStep evs `sublist_of` [Authentication; OverlayWrite].
Proof.
  unfold addConnectionTry. destruct o as [conn|].
  - unfold mbind at 1, M_bind at 1, bind at 1.
    destruct (connectInternal_effect host (loginType conn) conn w) as (r & e & -> & He).
    apply schemeCall_creationStep in He.
    destruct r as [t|err]; run.
    + eexists _, _, [e; _]. split; [done|]. split.
      * unfold appended. simpl. by rewrite <- app_assoc.
      * simpl. by rewrite He.
    + eexists _, _, [e]. split; [done|]. split; [done|].
      simpl. rewrite He. simpl. by apply sublist_skip, sublist_nil_l.
  - run. eexists _, _, []. split; [done|]. split.
    + unfold appended. by rewrite app_nil_r.
    + apply sublist_nil_l.
Qed.

Lemma addConnectionFinally_effect host w :
  ∃ r w' evs, addConnectionFinally host w = (r, w') ∧ appended w w' evs
              ∧ omap creationStep evs = [].
Proof.
  unfold addConnectionFinally, reloadWorkspaceConnection, getEntityDefinitions,
    getWebResources, appended.
  run.
  destruct (connectionCurrentStore w); simpl;
    repeat match goal with
      | |- context [requestData ?h ?q] => destruct (requestData h q); simpl
      end;
    eexists _, _, _; (split; [reflexivity|]); simpl;
    rewrite <- ?app_assoc; (split; [reflexivity|]); reflexivity.
Qed.

(** The steps of a creation, as far as they are taken, come in the order
    Registry write, authentication, Overlay write, each at most once. *)
Lemma addConnection_steps host w :
  ∃ evs, appended w (addConnection host w).2 evs
         ∧ omap creationStep evs `sublist_of` [RegistryWrite; Authentication; OverlayWrite].
Proof.
  unfold addConnection. unfold mbind at 1, M_bind at 1, bind at 1.
  destruct (connectionWizard_effect host w) as (o & w1 & -> & (_ & evs1 & Ha1 & Hs1 & _) & _).
  unfold tryFinally, tryCatch.
  destruct (addConnectionTry_effect host o w1) as (r & w2 & evs2 & -> & Ha2 & Hs2).
  assert (Hcatch : (match r with
                    | Ok a => (Ok a, w2)
                    | Throw e => @throw (option IConnection) e w2
                    end) = (r, w2)) by (by destruct r).
  rewrite Hcatch.
  destruct (addConnectionFinally_effect host w2) as (r3 & w3 & evs3 & -> & Ha3 & Hs3).
  exists (evs1 ++ evs2 ++ evs3). split.
  - replace (match r3 with Ok _ => (r, w3) | Throw e => (Throw e, w3) end).2 with w3
      by (by destruct r3).
    eapply appended_trans; [exact Ha1|]. eapply appended_trans; [exact Ha2 | exact Ha3].
  - rewrite !omap_app, Hs3, app_nil_r.
    change [RegistryWrite; Authentication; OverlayWrite]
      with ([RegistryWrite] ++ [Authentication; OverlayWrite]).
    by apply sublist_app.
Qed.

Lemma fallbackAttempt_effect host c o w :
  ∃ r w' evs, fallbackAttempt host c o w = (r, w') ∧ appended w w' evs
              ∧ omap reauthenticationStep evs `sublist_of` [FallbackAttempt].
Proof.
  unfold fallbackAttempt, appended. destruct o as [t|].
  - run. eexists _, _, []. split; [done|]. rewrite app_nil_r. split; [done|].
    apply sublist_nil_l.
  - cbv zeta.
    destruct (String.eqb _ (UserNamePassword _));
      [|destruct (String.eqb _ (ClientIdSecret _));
        [|destruct (String.eqb _ (MicrosoftLogin _));
          [|destruct (String.eqb _ (Azure _))]]];
      run;
      try match goal with
        | |- context [match ?o with Ok _ => _ | Throw _ => _ end] => destruct o
        end;
      try (eexists _, _, [_]; split; [reflexivity|]; split; [reflexivity|]; done).
    eexists _, _, []. split; [done|]. rewrite app_nil_r. split; [done|].
    apply sublist_nil_l.
Qed.

(** The steps of a reauthentication come in the order read of the refresh
    token, refresh attempt, fallback attempt, Overlay write, each at most
    once. *)
Lemma reAuthenticate_steps host c w :
  ∃ evs, appended w (reAuthenticate host c w).2 evs
         ∧ omap reauthenticationStep evs
           `sublist_of` [RefreshTokenRead; RefreshAttempt; FallbackAttempt; OverlayWrite].
Proof.
  unfold reAuthenticate. unfold mbind at 1, M_bind at 1, bind at 1.
  assert (Hrefresh : ∃ r w1 evs1, refreshAttempt host c w = (r, w1) ∧ appended w w1 evs1
                       ∧ omap reauthenticationStep evs1
                         `sublist_of` [RefreshTokenRead; RefreshAttempt]).
  { rewrite refreshAttempt_run. unfold appended.
    destruct (refreshToken c) as [tok|]; [destruct (truthy (Some tok))|];
      eexists _, _, _; (split; [reflexivity|]); (split; [reflexivity|]); simpl;
      try done; by apply sublist_skip, sublist_cons, sublist_nil_l. }
  destruct Hrefresh as (r & w1 & evs1 & -> & Ha1 & Hs1).
  destruct r as [o|e].
  - destruct (fallbackAttempt_effect host c o w1) as (r2 & w2 & evs2 & -> & Ha2 & Hs2).
    destruct r2 as [tokenResponse|e]; simpl.
    + exists (evs1 ++ evs2 ++ [EvSaveInWorkspace (storeTokens c tokenResponse)]). split.
      * eapply appended_trans; [exact Ha1|]. eapply appended_trans; [exact Ha2|]. done.
      * rewrite !omap_app.
        change [RefreshTokenRead; RefreshAttempt; FallbackAttempt; OverlayWrite]
          with ([RefreshTokenRead; RefreshAttempt] ++ [FallbackAttempt] ++ [OverlayWrite]).
        apply sublist_app; [done|]. by apply sublist_app.
    + exists (evs1 ++ evs2). split.
      * eapply appended_trans; [exact Ha1 | exact Ha2].
      * rewrite !omap_app.
        change [RefreshTokenRead; RefreshAttempt; FallbackAttempt; OverlayWrite]
          with ([RefreshTokenRead; RefreshAttempt] ++ [FallbackAttempt; OverlayWrite]).
        apply sublist_app; [done|].
        change [FallbackAttempt; OverlayWrite] with ([FallbackAttempt] ++ [OverlayWrite]).
        by apply sublist_inserts_r.
  - simpl. exists evs1. split; [done|].
    change [RefreshTokenRead; RefreshAttempt; FallbackAttempt; OverlayWrite]
      with ([RefreshTokenRead; RefreshAttempt] ++ [FallbackAttempt; OverlayWrite]).
    by apply sublist_inserts_r.
Qed.

(** ** The order of the steps *)

Lemma creation_order steps :
  steps `sublist_of` [RegistryWrite; Authentication; OverlayWrite] ->
  precedes RegistryWrite Authentication steps
  ∧ precedes Authentication OverlayWrite steps.
Proof.
  intros H.
  apply sublist_cons_r in H as [H | (l1 & -> & H)];
    (apply sublist_cons_r in H as [H | (l2 & -> & H)]);
    (apply sublist_cons_r in H as [H | (l3 & -> & H)]);
    apply sublist_nil_r in H as ->;
    split; check_precedes.
Qed.

Lemma reauthentication_order steps :
  steps `sublist_of` [RefreshTokenRead; RefreshAttempt; FallbackAttempt; OverlayWrite] ->
  precedes RefreshTokenRead RefreshAttempt steps
  ∧ precedes RefreshAttempt FallbackAttempt steps
  ∧ precedes FallbackAttempt OverlayWrite steps.
Proof.
  intros H.
  apply sublist_cons_r in H as [H | (l1 & -> & H)];
    (apply sublist_cons_r in H as [H | (l2 & -> & H)]);
    (apply sublist_cons_r in H as [H | (l3 & -> & H)]);
    (apply sublist_cons_r in H as [H | (l4 & -> & H)]);
    apply sublist_nil_r in H as ->;
    repeat split; check_precedes.
Qed.

(** Among the events a creation appends to the log, every write of the
    Registry comes strictly before every login and every login strictly
    before every write of the Overlay.  Among the events a
    reauthentication appends, the read of the refresh token comes strictly
    before the refresh attempt, that one before the fallback attempt, and
    that one before the write of the Overlay.  In both flows the steps are
    a subsequence of the full sequence, so none is taken twice; which
    steps are taken is the matter of [addConnection_steps_taken] and
    [reAuthenticate_steps_taken]. *)
Lemma flows_are_sequential (host : Host) (c : IConnection) (w : World) :
  (∃ evs, appended w (addConnection host w).2 evs
          ∧ omap creationStep evs
            `sublist_of` [RegistryWrite; Authentication; OverlayWrite]
          ∧ precedes RegistryWrite Authentication (omap creationStep evs)
          ∧ precedes Authentication OverlayWrite (omap creationStep evs))
  ∧ (∃ evs, appended w (reAuthenticate host c w).2 evs
            ∧ omap reauthenticationStep evs
              `sublist_of` [RefreshTokenRead; RefreshAttempt; FallbackAttempt; OverlayWrite]
            ∧ precedes RefreshTokenRead RefreshAttempt (omap reauthenticationStep evs)
            ∧ precedes RefreshAttempt FallbackAttempt (omap reauthenticationStep evs)
            ∧ precedes FallbackAttempt OverlayWrite (omap reauthenticationStep evs)).
Proof.
  split.
  - destruct (addConnection_steps host w) as (evs & Ha & Hs).
    exists evs. split; [done|]. split; [done|]. by apply creation_order.
  - destruct (reAuthenticate_steps host c w) as (evs & Ha & Hs).
    exists evs. split; [done|]. split; [done|]. by apply reauthentication_order.
Qed.

(** Runs in which every step is taken. *)
Example addConnection_all_steps :
  omap creationStep
    (log (addConnection
            (Sample.host Sample.devInput Sample.pickPassword (Ok None) (Ok Sample.token1))
            Sample.empty).2)
  = [RegistryWrite; Authentication; OverlayWrite].
Proof. reflexivity. Qed.

Example reAuthenticate_all_steps :
  omap reauthenticationStep
    (log (reAuthenticate (Sample.reauthHost (Ok None) (Ok Sample.token1))
            Sample.dev Sample.empty).2)
  = [RefreshTokenRead; RefreshAttempt; FallbackAttempt; OverlayWrite].
Proof. reflexivity. Qed.

(** ** C2: creating a connection under a name that is taken *)

(** On a name that resolves to a record, [saveConnection] shows the
    message and returns as it does after a successful save: nothing it
    hands back tells the wizard about the conflict. *)
Lemma saveConnection_conflict c r w :
  getConnectionByName (connectionName c) w = (Ok (Some r), w) ->
  saveConnection c w
  = (Ok tt,
     mkWorld (connectionStore w) (connectionCurrentStore w)
       (log w ++ [EvShowErrorMessage ErrorMessages.connectionWithSameNameExists])).
Proof.
  intros H. unfold saveConnection. unfold mbind at 1, M_bind at 1, bind at 1.
  rewrite H. reflexivity.
Qed.

(** Whenever the wizard returns a record, the login of a scheme is called. *)
Lemma addConnection_logs_in host w conn w1 :
  connectionWizard host w = (Ok (Some conn), w1) ->
  ∃ e, schemeCall e = Some e ∧ e ∈ log (addConnection host w).2.
Proof.
  intros Hwiz. unfold addConnection. unfold mbind at 1, M_bind at 1, bind at 1.
  rewrite Hwiz. unfold tryFinally, tryCatch, addConnectionTry.
  unfold mbind at 1, M_bind at 1, bind at 1.
  destruct (connectInternal_effect host (loginType conn) conn w1) as (r & e & -> & He).
  exists e. split; [done|].
  set (w2 := mkWorld (connectionStore w1) (connectionCurrentStore w1) (log w1 ++ [e])).
  assert (Hin : ∀ w3 evs, appended w2 w3 evs -> e ∈ log w3).
  { intros w3 evs ->. subst w2. simpl. rewrite !elem_of_app, list_elem_of_singleton. tauto. }
  destruct r as [t|err]; run.
  - match goal with
    | |- context [addConnectionFinally host ?w3] =>
        destruct (addConnectionFinally_effect host w3) as (r3 & w4 & evs & -> & Ha & _);
        assert (e ∈ log w4)
          by (rewrite Ha; simpl; rewrite !elem_of_app, !list_elem_of_singleton; tauto)
    end.
    by destruct r3.
  - destruct (addConnectionFinally_effect host w2) as (r3 & w4 & evs & Hf & Ha & _).
    fold w2. rewrite Hf. pose proof (Hin _ _ Ha). by destruct r3.
Qed.

(** C2 on a failing input.  The Registry holds a connection [dev] and the
    user creates a connection of that name.  The message about the name
    is shown and the Registry keeps its records, but the flow goes on:
    the login is called for the draft, and the draft with the new tokens
    is written to the Overlay and returned. *)
Theorem addConnection_name_conflict :
  getConnectionByName "dev" Sample.taken = (Ok (Some Sample.dev), Sample.taken)
  ∧ addConnection
      (Sample.host Sample.devInput Sample.pickPassword (Ok None) (Ok Sample.token1))
      Sample.taken
    = (Ok (Some Sample.signedIn),
       mkWorld (Some [Sample.test; Sample.dev]) (Some Sample.signedIn)
         [EvShowErrorMessage ErrorMessages.connectionWithSameNameExists;
          EvLoginWithUsernamePassword "https://org.example.com" (Some "u") (Some "p");
          EvSaveInWorkspace Sample.signedIn;
          EvExecuteCommand "dvdt.explorer.connections.refreshConnection";
          EvRequestData "EntityDefinitions";
          EvExecuteCommand "dvdt.explorer.entities.loadEntities";
          EvRequestData "webresourceset";
          EvExecuteCommand "dvdt.explorer.webresources.loadWebResources"]).
Proof. split; reflexivity. Qed.

(** ** C9: a login that fails *)

(** Calling an [async] method and awaiting its promise is running the
    method: this is how the awaited calls of the class are embedded. *)
Lemma await_callAsync {A} (f : M A) (w : World) :
  (p ← callAsync f; await p) w = f w.
Proof. unfold callAsync, await. run. by destruct (f w). Qed.

(** A rejection is caught by the [try] block that awaits the promise, and
    not by the one that returns it. *)
Lemma tryCatch_awaited {A} (task : M A) (handler : exn -> M A) e w w' :
  task w = (Throw e, w') ->
  tryCatch (p ← callAsync task; await p) handler w = handler e w'.
Proof. intros H. unfold tryCatch. by rewrite await_callAsync, H. Qed.

Lemma tryCatch_returned {A} (task : M A) (handler : exn -> M (Promise A)) e w w' :
  task w = (Throw e, w') ->
  asyncFunction (tryCatch (callAsync task) handler) w = (Throw e, w').
Proof. intros H. unfold asyncFunction, tryCatch, callAsync. by rewrite H. Qed.


(** In the creation flow the error of the login is caught, raised again
    and, once the [finally] block has run, raised to the caller. *)
Lemma addConnection_rethrows host w conn w1 e w2 :
  connectionWizard host w = (Ok (Some conn), w1) ->
  connectInternal host (loginType conn) conn w1 = (Throw e, w2) ->
  (addConnection host w).1
  = match (addConnectionFinally host w2).1 with
    | Ok _ => Throw e
    | Throw e' => Throw e'
    end.
Proof.
  intros Hwiz Hlogin. unfold addConnection. unfold mbind at 1, M_bind at 1, bind at 1.
  rewrite Hwiz. unfold tryFinally, tryCatch, addConnectionTry.
  unfold mbind at 1, M_bind at 1, bind at 1. rewrite Hlogin. unfold throw.
  by destruct (addConnectionFinally host w2) as [[[]|e'] w3].
Qed.

(** For a name that resolves, [connectToDataverse] completes as the task
    it hands to [withProgress]. *)
Lemma connectToDataverse_resolved host label w c :
  getConnectionByName label w = (Ok (Some c), w) ->
  connectToDataverse host label w = connectTask host (sharedWith label w) c w.
Proof.
  intros Hname.
  unfold connectToDataverse, asyncFunction, tryCatch, sharesWorkspaceObject, getFromWorkspace.
  unfold mbind, M_bind, bind, mret, M_ret, ret. cbv beta iota.
  rewrite Hname. unfold withProgress, callAsync. fold (sharedWith label w).
  by destruct (connectTask host (sharedWith label w) c w) as [[r|e] w'].
Qed.

(** In the flow that connects to a stored connection the promise of
    [withProgress] leaves the [try] block as a value, so the error of the
    login is the rejection of what [connectToDataverse] returns: the empty
    [catch] does not see it. *)
Lemma connectToDataverse_rejects host label w c e w2 :
  getConnectionByName label w = (Ok (Some c), w) ->
  connectInternal host (loginType c) c w = (Throw e, w2) ->
  connectToDataverse host label w = (Throw e, w2).
Proof.
  intros Hname Hlogin. rewrite (connectToDataverse_resolved host label w c Hname).
  unfold connectTask. unfold mbind at 1, M_bind at 1, bind at 1. by rewrite Hlogin.
Qed.

(** The [catch] of [connectToDataverse] does swallow what is raised while
    the [try] block itself runs; nothing in the modelled block raises. *)
Lemma connectToDataverse_unknown_name label w :
  getConnectionByName label w = (Ok None, w) ->
  ∀ host, connectToDataverse host label w = (Ok None, w).
Proof.
  intros Hname host.
  unfold connectToDataverse, asyncFunction, tryCatch, sharesWorkspaceObject, getFromWorkspace.
  unfold mbind, M_bind, bind, mret, M_ret, ret. cbv beta iota. by rewrite Hname.
Qed.

(** C9 on a failing input.  With a login that fails, the creation flow
    raises the error of the login to its caller, as the claim says; the
    flow that connects to the stored connection [dev] raises it as well,
    where the claim has it return [undefined]. *)
Theorem login_failure_propagates :
  (addConnection
     (Sample.host Sample.devInput Sample.pickPassword (Ok None)
        (Throw (Failure "invalid credentials")))
     Sample.empty).1
  = Throw (Failure "invalid credentials")
  ∧ (connectToDataverse
       (Sample.host Sample.devInput Sample.pickPassword (Ok None)
          (Throw (Failure "invalid credentials")))
       "dev" Sample.taken).1
    = Throw (Failure "invalid credentials")
  ∧ (connectToDataverse
       (Sample.host Sample.devInput Sample.pickPassword (Ok None)
          (Throw (Failure "invalid credentials")))
       "dev" Sample.taken).1
    ≠ Ok None.
Proof. repeat split; try reflexivity. discriminate. Qed.

Example connectToDataverse_success :
  (connectToDataverse
     (Sample.host Sample.devInput Sample.pickPassword (Ok None) (Ok Sample.jwtToken))
     "dev" Sample.taken).1
  = Ok (Some (mkConnection "https://org.example.com" "UserNamePassword"
                (Some "u@example.com") (Some "p") None "dev" None
                (Some Sample.jwt) (Some "refresh-1"))).
Proof. reflexivity. Qed.

(** An access token that is not in three segments makes the decoding of
    the user name raise, after the login and before the Overlay is
    written. *)
Example connectToDataverse_opaque_token :
  connectToDataverse
    (Sample.host Sample.devInput Sample.pickPassword (Ok None) (Ok Sample.token1))
    "dev" Sample.taken
  = (Throw (TypeError "The first argument must be of type string"),
     mkWorld (Some [Sample.test; Sample.dev]) None
       [EvLoginWithUsernamePassword "https://org.example.com" (Some "u") (Some "p")]).
Proof. reflexivity. Qed.

(** * Further properties of the registry *)

Lemma getConnectionByName_run connName w :
  getConnectionByName connName w
  = (Ok (match connectionCurrentStore w with
         | Some c =>
             if String.eqb (connectionName c) connName then Some c
             else find (byName connName) (registry w)
         | None => find (byName connName) (registry w)
         end), w).
Proof.
  unfold getConnectionByName, registry. run.
  destruct (connectionCurrentStore w) as [c|];
    [destruct (String.eqb (connectionName c) connName)|];
    by destruct (connectionStore w).
Qed.

Lemma find_none_names connName conns :
  find (byName connName) conns = None ↔ connName ∉ names conns.
Proof.
  unfold names. induction conns as [|c conns IH]; simpl.
  - split; [intros _; apply not_elem_of_nil | done].
  - rewrite not_elem_of_cons. destruct (byName connName c) eqn:Hc.
    + apply byName_named in Hc. unfold named in Hc. split; [done|]. intros [H _]. congruence.
    + apply byName_not_named in Hc. unfold named in Hc. rewrite IH.
      split; [intros H; split; [congruence | done] | tauto].
Qed.

Lemma find_other_name n r l1 l2 :
  connectionName r ≠ n ->
  find (byName n) (l1 ++ r :: l2) = find (byName n) (l1 ++ l2).
Proof.
  intros Hr. induction l1 as [|x l1 IH]; simpl.
  - apply String.eqb_neq in Hr. unfold byName at 1. by rewrite Hr.
  - by rewrite IH.
Qed.

(** What [removeConnectionInternal] leaves in the two slots. *)
Lemma removeConnectionInternal_run connName w :
  ∃ w', removeConnectionInternal connName w = (Ok tt, w')
        ∧ connectionCurrentStore w' = connectionCurrentStore w
        ∧ match connectionStore w with
          | Some conns =>
              ∃ rest, removedFirst connName conns rest
                      ∧ connectionStore w' = match rest with [] => None | _ => Some rest end
          | None => w' = w
          end.
Proof.
  unfold removeConnectionInternal. run.
  destruct (connectionStore w) as [conns|] eqn:Hreg; [|by exists w].
  pose proof (find_indexOf_splice connName conns) as Hrm.
  set (rest := if (indexOf conns (find (byName connName) conns) >? -1)%Z
               then splice1 conns (indexOf conns (find (byName connName) conns))
               else conns) in *.
  destruct rest as [|c rest'] eqn:Hrest; simpl;
    (eexists; split; [done|]; split; [done|]); eexists; (split; [exact Hrm | done]).
Qed.

Lemma removedFirst_registry connName conns rest w' :
  removedFirst connName conns rest ->
  connectionStore w' = match rest with [] => None | _ => Some rest end ->
  registry w' = rest.
Proof. intros _ H. unfold registry. rewrite H. by destruct rest. Qed.

(** ** Removing one name leaves the other names alone *)

(** However the stored list looks, removing the connection [connName]
    does not change what any other name resolves to. *)
Theorem removeConnectionInternal_other_names (connName n : string) (w : World) :
  n ≠ connName ->
  (getConnectionByName n (removeConnectionInternal connName w).2).1
  = (getConnectionByName n w).1.
Proof.
  intros Hn.
  destruct (removeConnectionInternal_run connName w) as (w' & -> & Hcur & Hreg).
  rewrite !getConnectionByName_run. simpl. rewrite Hcur.
  assert (Hfind : find (byName n) (registry w') = find (byName n) (registry w)).
  { destruct (connectionStore w) as [conns|] eqn:Hs; [|by subst].
    destruct Hreg as (rest & Hrm & Hstore).
    rewrite (removedFirst_registry _ _ _ _ Hrm Hstore).
    unfold registry at 1. rewrite Hs.
    destruct Hrm as [l1 r l2 _ Hr|]; [|done].
    symmetry. apply find_other_name. unfold named in Hr. congruence. }
  by rewrite Hfind.
Qed.

Lemma removeConnectionInternal_other_names_witness :
  "test" ≠ "dev"
  ∧ (getConnectionByName "test" (removeConnectionInternal "dev" Sample.taken).2).1
    = Ok (Some Sample.test).
Proof.
  assert (H : "test" ≠ "dev") by discriminate.
  split; [exact H|].
  exact (removeConnectionInternal_other_names "dev" "test" Sample.taken H).
Defined.

(** ** One record per name *)

Lemma removedFirst_names connName conns rest :
  removedFirst connName conns rest ->
  NoDup (names conns) ->
  NoDup (names rest) ∧ connName ∉ names rest.
Proof.
  unfold names. intros [l1 r l2 Hl1 Hr|l Hl] Hnd.
  - rewrite map_app in *. simpl in Hnd.
    apply NoDup_app in Hnd as (Hn1 & Hdisj & Hn2).
    apply NoDup_cons in Hn2 as [Hr2 Hn2]. split.
    + apply NoDup_app. split; [done|]. split; [|done].
      intros x Hx Hx2. apply (Hdisj x Hx). rewrite elem_of_cons. by right.
    + unfold named in Hr. rewrite elem_of_app. intros [H|H].
      * apply list_elem_of_fmap in H as (x & Hx & Hin).
        rewrite Forall_forall in Hl1. by apply (Hl1 x Hin).
      * by subst.
  - split; [done|]. intros H. apply list_elem_of_fmap in H as (x & Hx & Hin).
    rewrite Forall_forall in Hl. by apply (Hl x Hin).
Qed.

(** When the registry holds one record per name, removing a name leaves
    no record of that name and still one record per other name. *)
Theorem removeConnectionInternal_unique (connName : string) (w : World) :
  NoDup (names (registry w)) ->
  NoDup (names (registry (removeConnectionInternal connName w).2))
  ∧ connName ∉ names (registry (removeConnectionInternal connName w).2).
Proof.
  intros Hnd.
  destruct (removeConnectionInternal_run connName w) as (w' & -> & _ & Hreg). simpl.
  destruct (connectionStore w) as [conns|] eqn:Hs.
  - destruct Hreg as (rest & Hrm & Hstore).
    rewrite (removedFirst_registry _ _ _ _ Hrm Hstore).
    apply (removedFirst_names _ conns); [done|]. unfold registry in Hnd. by rewrite Hs in Hnd.
  - subst. split; [done|]. unfold registry. rewrite Hs. apply not_elem_of_nil.
Qed.

Lemma removeConnectionInternal_unique_witness :
  NoDup (names (registry Sample.taken))
  ∧ NoDup (names (registry (removeConnectionInternal "dev" Sample.taken).2))
  ∧ "dev" ∉ names (registry (removeConnectionInternal "dev" Sample.taken).2).
Proof.
  assert (H : NoDup (names (registry Sample.taken)))
    by (apply (bool_decide_unpack _); vm_compute; reflexivity).
  split; [exact H|].
  exact (removeConnectionInternal_unique "dev" Sample.taken H).
Defined.

(** [saveConnection] keeps one record per name: it appends only a name
    that resolves to nothing. *)
Theorem saveConnection_keeps_names_unique (c : IConnection) (w : World) :
  NoDup (names (registry w)) ->
  NoDup (names (registry (saveConnection c w).2)).
Proof.
  intros Hnd. unfold saveConnection. unfold mbind at 1, M_bind at 1, bind at 1.
  rewrite getConnectionByName_run.
  set (existing := match connectionCurrentStore w with
                   | Some c0 => _
                   | None => _
                   end).
  assert (Hex : existing = None -> connectionName c ∉ names (registry w)).
  { subst existing. intros H. apply find_none_names.
    destruct (connectionCurrentStore w) as [c0|]; [|done].
    by destruct (String.eqb (connectionName c0) (connectionName c)). }
  destruct existing as [r|]; [done|]. specialize (Hex eq_refl).
  run. unfold registry in *.
  destruct (connectionStore w) as [conns|]; simpl.
  - unfold names in *. rewrite map_app. apply NoDup_app. split; [done|]. split.
    + intros x Hx Hx'. apply list_elem_of_singleton in Hx'. by subst.
    + apply NoDup_singleton.
  - apply NoDup_singleton.
Qed.

Lemma saveConnection_keeps_names_unique_witness :
  NoDup (names (registry Sample.taken))
  ∧ NoDup (names (registry (saveConnection Sample.draftBrowser Sample.taken).2))
  ∧ NoDup (names (registry (saveConnection Sample.untagged Sample.taken).2)).
Proof.
  assert (H : NoDup (names (registry Sample.taken)))
    by (apply (bool_decide_unpack _); vm_compute; reflexivity).
  split; [exact H|]. split.
  - exact (saveConnection_keeps_names_unique Sample.draftBrowser Sample.taken H).
  - exact (saveConnection_keeps_names_unique Sample.untagged Sample.taken H).
Defined.

(** ** The Overlay outlives a deletion *)

(** Deleting the connection that is the current one, confirmed or not,
    takes it out of the stored list at most: the workspace slot keeps its
    record, and the name still resolves to it. *)
Theorem removeConnection_keeps_overlay (host : Host) (c : IConnection) (w : World) :
  connectionCurrentStore w = Some c ->
  connectionCurrentStore (deleteConnection host (connectionName c) w).2 = Some c
  ∧ (getConnectionByName (connectionName c)
       (deleteConnection host (connectionName c) w).2).1 = Ok (Some c).
Proof.
  intros Hcur.
  assert (H : connectionCurrentStore (deleteConnection host (connectionName c) w).2 = Some c).
  { unfold deleteConnection, removeConnection. unfold mbind at 1, M_bind at 1, bind at 1.
    destruct (decide _).
    - destruct (removeConnectionInternal_run (connectionName c) w) as (w' & -> & Hc & _).
      run. congruence.
    - run. done. }
  split; [exact H|].
  rewrite getConnectionByName_run. simpl. rewrite H. by rewrite String.eqb_refl.
Qed.

Lemma removeConnection_keeps_overlay_witness :
  connectionCurrentStore (mkWorld (Some [Sample.dev]) (Some Sample.dev) []) = Some Sample.dev
  ∧ connectionStore
      (deleteConnection (Sample.reauthHost (Ok None) (Ok Sample.token1)) "dev"
         (mkWorld (Some [Sample.dev]) (Some Sample.dev) [])).2 = None
  ∧ (getConnectionByName "dev"
       (deleteConnection (Sample.reauthHost (Ok None) (Ok Sample.token1)) "dev"
          (mkWorld (Some [Sample.dev]) (Some Sample.dev) [])).2).1 = Ok (Some Sample.dev).
Proof.
  split; [reflexivity|]. split; [reflexivity|].
  exact (proj2 (removeConnection_keeps_overlay (Sample.reauthHost (Ok None) (Ok Sample.token1))
                  Sample.dev (mkWorld (Some [Sample.dev]) (Some Sample.dev) []) eq_refl)).
Defined.

(** ** Saving, looking up, removing *)

Lemma find_appended c conns :
  connectionName c ∉ names conns ->
  find (byName (connectionName c)) (conns ++ [c]) = Some c
  ∧ indexOf (conns ++ [c]) (Some c) = Z.of_nat (length conns).
Proof.
  intros Hfresh. split.
  - induction conns as [|x conns IH]; simpl.
    + unfold byName. by rewrite String.eqb_refl.
    + unfold names in Hfresh. simpl in Hfresh. apply not_elem_of_cons in Hfresh as [Hx Hrest].
      replace (byName (connectionName c) x) with false
        by (symmetry; apply byName_not_named; unfold named; congruence).
      by apply IH.
  - simpl. rewrite indexOfFrom_middle; [lia|].
    apply Forall_forall. intros x Hx ->. apply Hfresh.
    unfold names. apply list_elem_of_fmap. by exists c.
Qed.

(** What [saveConnection] does with a name that resolves to nothing. *)
Lemma saveConnection_fresh c w :
  getConnectionByName (connectionName c) w = (Ok None, w) ->
  saveConnection c w
  = (Ok tt, mkWorld (Some (registry w ++ [c])) (connectionCurrentStore w)
              (log w ++ [EvSaveInGlobal (registry w ++ [c])])).
Proof.
  intros H. unfold saveConnection. unfold mbind at 1, M_bind at 1, bind at 1.
  rewrite H. unfold registry. run. by destruct (connectionStore w).
Qed.

Lemma getConnectionByName_none connName w :
  getConnectionByName connName w = (Ok None, w) ->
  (connName ∉ names (registry w))
  ∧ (∀ c, connectionCurrentStore w = Some c -> connectionName c ≠ connName).
Proof.
  rewrite getConnectionByName_run. intros [= H].
  destruct (connectionCurrentStore w) as [c0|].
  - destruct (String.eqb (connectionName c0) connName) eqn:E; [done|].
    apply String.eqb_neq in E. split; [by apply find_none_names|]. by intros c [= <-].
  - split; [by apply find_none_names | done].
Qed.

(** A record saved under a name that resolved to nothing is what the name
    resolves to afterwards, and the records stored before keep their
    places in front of it. *)
Theorem saveConnection_then_lookup (c : IConnection) (w : World) :
  getConnectionByName (connectionName c) w = (Ok None, w) ->
  (getConnectionByName (connectionName c) (saveConnection c w).2).1 = Ok (Some c)
  ∧ registry (saveConnection c w).2 = registry w ++ [c].
Proof.
  intros Hfresh. pose proof (getConnectionByName_none _ _ Hfresh) as [Hreg Hcur].
  rewrite (saveConnection_fresh c w Hfresh), getConnectionByName_run. simpl.
  split; [|done].
  destruct (find_appended c (registry w) Hreg) as [Hfind _].
  match goal with
  | |- context [registry ?w1] =>
      lazymatch w1 with
      | mkWorld _ _ _ => change (registry w1) with (registry w ++ [c])
      end
  end.
  destruct (connectionCurrentStore w) as [c0|]; [|by rewrite Hfind].
  specialize (Hcur c0 eq_refl). apply String.eqb_neq in Hcur. by rewrite Hcur, Hfind.
Qed.

Lemma saveConnection_then_lookup_witness :
  getConnectionByName (connectionName Sample.untagged) Sample.taken = (Ok None, Sample.taken)
  ∧ (getConnectionByName "legacy" (saveConnection Sample.untagged Sample.taken).2).1
    = Ok (Some Sample.untagged)
  ∧ registry (saveConnection Sample.untagged Sample.taken).2
    = [Sample.test; Sample.dev; Sample.untagged].
Proof.
  split; [reflexivity|].
  exact (saveConnection_then_lookup Sample.untagged Sample.taken eq_refl).
Defined.

(** Removing a record right after it was saved under a fresh name gives
    the stored list back, an absent key included; only a key that held an
    empty list comes back absent. *)
Theorem saveConnection_then_remove (c : IConnection) (w : World) :
  getConnectionByName (connectionName c) w = (Ok None, w) ->
  connectionStore (removeConnectionInternal (connectionName c) (saveConnection c w).2).2
  = match connectionStore w with
    | Some [] => None
    | stored => stored
    end.
Proof.
  intros Hfresh. pose proof (getConnectionByName_none _ _ Hfresh) as [Hreg _].
  rewrite (saveConnection_fresh c w Hfresh). simpl.
  unfold removeConnectionInternal. run.
  destruct (find_appended c (registry w) Hreg) as [-> ->].
  replace (Z.of_nat (length (registry w)) >? -1)%Z with true
    by (symmetry; apply Z.gtb_lt; lia).
  unfold splice1. rewrite Nat2Z.id.
  replace (registry w ++ [c]) with (registry w ++ c :: []) by done.
  rewrite delete_middle, app_nil_r. unfold registry.
  destruct (connectionStore w) as [[|x conns]|]; done.
Qed.

Lemma saveConnection_then_remove_witness :
  getConnectionByName (connectionName Sample.untagged) Sample.taken = (Ok None, Sample.taken)
  ∧ connectionStore
      (removeConnectionInternal "legacy" (saveConnection Sample.untagged Sample.taken).2).2
    = Some [Sample.test; Sample.dev].
Proof.
  split; [reflexivity|].
  exact (saveConnection_then_remove Sample.untagged Sample.taken eq_refl).
Defined.

(** ** Deleting every connection *)

Lemma removeConnectionInternal_head c rest w :
  connectionStore w = Some (c :: rest) ->
  ∃ w', removeConnectionInternal (connectionName c) w = (Ok tt, w')
        ∧ connectionCurrentStore w' = connectionCurrentStore w
        ∧ connectionStore w' = match rest with [] => None | _ => Some rest end.
Proof.
  intros Hs.
  assert (Hfind : find (byName (connectionName c)) (c :: rest) = Some c)
    by (simpl; unfold byName; by rewrite String.eqb_refl).
  assert (Hidx : indexOf (c :: rest) (Some c) = 0%Z)
    by (simpl; by rewrite decide_True).
  unfold removeConnectionInternal, getFromGlobal. unfold mbind, M_bind, bind.
  rewrite Hs. cbv zeta. rewrite Hfind, Hidx. unfold splice1. simpl.
  destruct rest; simpl; run; by eexists.
Qed.

(** The loop over the parsed list removes the records one by one from the
    front of the stored list. *)
Lemma forEach_remove conns w :
  connectionStore w = Some conns -> conns ≠ [] ->
  ∃ w', forEach (fun c => removeConnectionInternal (connectionName c)) conns w = (Ok tt, w')
        ∧ connectionCurrentStore w' = connectionCurrentStore w
        ∧ connectionStore w' = None.
Proof.
  revert w. induction conns as [|c rest IH]; intros w Hs Hne; [done|].
  simpl. unfold mbind at 1, M_bind at 1, bind at 1.
  destruct (removeConnectionInternal_head c rest w Hs) as (w1 & -> & Hc1 & Hs1).
  destruct rest as [|c' rest'].
  - simpl. run. by exists w1.
  - destruct (IH w1 Hs1 ltac:(done)) as (w2 & Hrun & Hc2 & Hs2).
    exists w2. split; [exact Hrun|]. split; [congruence | done].
Qed.

(** Once confirmed, deleting all connections leaves the key of the list
    unset whatever records it held, records that share a name included; a
    key that held an empty list keeps it.  The workspace slot keeps its
    record. *)
Theorem deleteAllConnections_confirmed (host : Host) (w : World) :
  showWarningMessage host "Are you sure you want to delete ALL connections?" = Some "Yes" ->
  ∃ w', deleteAllConnections host w = (Ok tt, w')
        ∧ connectionCurrentStore w' = connectionCurrentStore w
        ∧ connectionStore w' = match connectionStore w with
                               | Some [] => Some []
                               | _ => None
                               end.
Proof.
  intros Hyes. unfold deleteAllConnections, removeAllConnections. rewrite Hyes.
  rewrite decide_True by done.
  unfold mbind at 1, M_bind at 1, bind at 1. unfold mbind at 1, M_bind at 1, bind at 1.
  unfold getFromGlobal at 1.
  destruct (connectionStore w) as [[|c rest]|] eqn:Hs.
  - simpl. run. eexists. split; [done|]. simpl. by rewrite Hs.
  - destruct (forEach_remove (c :: rest) w Hs ltac:(done)) as (w1 & -> & Hc1 & Hs1).
    run. eexists. split; [done|]. simpl. done.
  - run. eexists. split; [done|]. simpl. by rewrite Hs.
Qed.

Lemma deleteAllConnections_confirmed_witness :
  showWarningMessage (Sample.reauthHost (Ok None) (Ok Sample.token1))
    "Are you sure you want to delete ALL connections?" = Some "Yes"
  ∧ ∃ w', deleteAllConnections (Sample.reauthHost (Ok None) (Ok Sample.token1))
            (mkWorld (Some [Sample.dev; Sample.test; Sample.dev']) (Some Sample.dev) [])
          = (Ok tt, w')
          ∧ connectionCurrentStore w' = Some Sample.dev
          ∧ connectionStore w' = None.
Proof.
  split; [reflexivity|].
  exact (deleteAllConnections_confirmed (Sample.reauthHost (Ok None) (Ok Sample.token1))
           (mkWorld (Some [Sample.dev; Sample.test; Sample.dev']) (Some Sample.dev) [])
           eq_refl).
Defined.

(** * Further properties of the wizard *)

Lemma required_inv resp msg k w o w' :
  required resp msg k w = (Ok o, w') ->
  (∃ s, resp = Some s ∧ truthy (Some s) = true ∧ k s w = (Ok o, w'))
  ∨ (o = None ∧ aborted w w').
Proof.
  unfold required, aborted.
  destruct resp as [s|]; [destruct (truthy (Some s)) eqn:Ht|]; run.
  - intros H. left. by exists s.
  - intros [= <- <-]. right. split; [done|]. by eexists.
  - intros [= <- <-]. right. split; [done|]. by eexists.
Qed.

Lemma nameAndSave_inv host url lt u p t w o w' :
  nameAndSave host url lt u p t w = (Ok o, w') ->
  (∃ conn, o = Some conn ∧ saveConnection conn w = (Ok tt, w')
           ∧ loginType conn = lt ∧ environmentUrl conn = url
           ∧ userName conn = u ∧ password conn = p ∧ tenantId conn = t
           ∧ truthy (Some (connectionName conn)) = true
           ∧ (connectionName conn ∉ reservedWords host)
           ∧ tokenless conn)
  ∨ (o = None ∧ aborted w w').
Proof.
  unfold nameAndSave.
  destruct (truthy (showInputBox host Placeholders.connectionName)
            && bool_decide
                 (nullish (showInputBox host Placeholders.connectionName) ""
                  ∈ reservedWords host)) eqn:Hres.
  - run. intros [= <- <-]. right. split; [done|]. by eexists.
  - intros H. apply required_inv in H as [(name & Hname & Htruthy & H)|H]; [|by right].
    left. rewrite Hname, Htruthy in Hres. simpl in Hres.
    apply bool_decide_eq_false in Hres.
    revert H. unfold mbind at 1, M_bind at 1, bind at 1.
    match goal with
    | |- context [saveConnection ?c w] =>
        destruct (saveConnection_effect c w) as (w1 & Hsave & _); rewrite Hsave
    end.
    run. intros [= <- <-]. eexists. split; [done|]. split; [exact Hsave|].
    simpl. repeat split; done.
Qed.

(** The wizard either gives up with one message and no other effect, or
    returns a record it has just passed to [saveConnection]. *)
Lemma connectionWizard_inv host w o w' :
  connectionWizard host w = (Ok o, w') ->
  (∃ conn, o = Some conn ∧ saveConnection conn w = (Ok tt, w') ∧ wellFormed host conn)
  ∨ (o = None ∧ aborted w w').
Proof.
  unfold connectionWizard, wellFormed. intros H.
  apply required_inv in H as [(url & _ & Hurl & H)|H]; [|by right].
  cbv zeta in H.
  destruct (String.eqb _ (UserNamePassword _)) eqn:E1;
    [|destruct (String.eqb _ (ClientIdSecret _)) eqn:E2;
      [|destruct (String.eqb _ (Azure _)) eqn:E3]].
  - apply String.eqb_eq in E1.
    apply required_inv in H as [(un & _ & Hun & H)|H]; [|by right].
    apply required_inv in H as [(pw & _ & Hpw & H)|H]; [|by right].
    apply nameAndSave_inv in H
      as [(conn & -> & Hsave & Hlt & Hu & Hn & Hp & Ht & Hname & Hres & Htok)|H]; [|by right].
    left. exists conn. split; [done|]. split; [done|]. split.
    + exists PasswordCredential. simpl. rewrite Hlt, E1, Hn, Hp, Ht. done.
    + rewrite Hu. done.
  - apply String.eqb_eq in E2.
    apply required_inv in H as [(un & _ & Hun & H)|H]; [|by right].
    apply required_inv in H as [(pw & _ & Hpw & H)|H]; [|by right].
    apply required_inv in H as [(tid & _ & Htid & H)|H]; [|by right].
    apply nameAndSave_inv in H
      as [(conn & -> & Hsave & Hlt & Hu & Hn & Hp & Ht & Hname & Hres & Htok)|H]; [|by right].
    left. exists conn. split; [done|]. split; [done|]. split.
    + exists ClientCredential. simpl. rewrite Hlt, E2, Hn, Hp, Ht. done.
    + rewrite Hu. done.
  - apply nameAndSave_inv in H
      as [(conn & -> & Hsave & Hlt & Hu & Hn & Hp & Ht & Hname & Hres & Htok)|H]; [|by right].
    left. exists conn. split; [done|]. split; [done|]. split.
    + exists PlatformDelegated. simpl. done.
    + rewrite Hu. done.
  - apply nameAndSave_inv in H
      as [(conn & -> & Hsave & Hlt & Hu & Hn & Hp & Ht & Hname & Hres & Htok)|H]; [|by right].
    left. exists conn. split; [done|]. split; [done|]. split.
    + exists InteractiveBrowser. simpl. done.
    + rewrite Hu. done.
Qed.

(** ** What the wizard hands out *)

(** Every record the wizard returns is complete for its scheme: user name
    and password for the password scheme, client id, secret and tenant for
    the client scheme, no credential for the two others; it has a
    non-empty URL, a non-empty name that is no reserved word, and no
    token. *)
Theorem connectionWizard_record_well_formed (host : Host) (w : World)
    (conn : IConnection) (w' : World) :
  connectionWizard host w = (Ok (Some conn), w') ->
  wellFormed host conn.
Proof.
  intros H. apply connectionWizard_inv in H as [(c & [= <-] & _ & Hwf)|[[=] _]]. exact Hwf.
Qed.

Lemma connectionWizard_record_well_formed_witness :
  connectionWizard
    (Sample.host Sample.devInput Sample.pickPassword (Ok None) (Ok Sample.token1))
    Sample.empty
  = (Ok (Some Sample.draftPassword),
     mkWorld (Some [Sample.draftPassword]) None [EvSaveInGlobal [Sample.draftPassword]])
  ∧ wellFormed
      (Sample.host Sample.devInput Sample.pickPassword (Ok None) (Ok Sample.token1))
      Sample.draftPassword.
Proof.
  split; [reflexivity|].
  exact (connectionWizard_record_well_formed
           (Sample.host Sample.devInput Sample.pickPassword (Ok None) (Ok Sample.token1))
           Sample.empty Sample.draftPassword
           (mkWorld (Some [Sample.draftPassword]) None [EvSaveInGlobal [Sample.draftPassword]])
           eq_refl).
Defined.

(** ** When the wizard gives up *)

(** A wizard that returns no record has shown exactly one error message
    and has written neither the stored list nor the workspace slot. *)
Theorem connectionWizard_gives_up (host : Host) (w w' : World) :
  connectionWizard host w = (Ok None, w') ->
  aborted w w'.
Proof.
  intros H. apply connectionWizard_inv in H as [(c & [=] & _)|[_ H]]. exact H.
Qed.

Lemma connectionWizard_gives_up_witness :
  connectionWizard
    (Sample.host Sample.noAnswer Sample.noAnswer (Ok None) (Ok Sample.token1))
    Sample.taken
  = (Ok None,
     mkWorld (Some [Sample.test; Sample.dev]) None
       [EvShowErrorMessage ErrorMessages.dataverseEnvironmentUrlRequired])
  ∧ aborted Sample.taken
      (mkWorld (Some [Sample.test; Sample.dev]) None
         [EvShowErrorMessage ErrorMessages.dataverseEnvironmentUrlRequired]).
Proof.
  split; [reflexivity|].
  exact (connectionWizard_gives_up
           (Sample.host Sample.noAnswer Sample.noAnswer (Ok None) (Ok Sample.token1))
           Sample.taken _ eq_refl).
Defined.

Lemma required_abort resp msg k w :
  (∀ s, ∃ w', k s w = (Ok None, w') ∧ aborted w w') ->
  ∃ w', required resp msg k w = (Ok None, w') ∧ aborted w w'.
Proof.
  intros Hk. unfold required, aborted.
  destruct resp as [s|]; [destruct (truthy (Some s))|]; run;
    [apply Hk | |]; eexists; (split; [done|]); by eexists.
Qed.

Lemma nameAndSave_bad_name host url lt u p t w :
  truthy (showInputBox host Placeholders.connectionName) = false
  ∨ nullish (showInputBox host Placeholders.connectionName) "" ∈ reservedWords host ->
  ∃ w', nameAndSave host url lt u p t w = (Ok None, w') ∧ aborted w w'.
Proof.
  intros Hname. unfold nameAndSave.
  destruct (truthy (showInputBox host Placeholders.connectionName)) eqn:Ht.
  - destruct Hname as [|Hin]; [done|].
    rewrite (bool_decide_eq_true_2 _ Hin). simpl. run.
    eexists. split; [done|]. by eexists.
  - simpl. unfold required.
    destruct (showInputBox host Placeholders.connectionName) as [s|]; [rewrite Ht|];
      run; eexists; (split; [done|]); by eexists.
Qed.

(** Whatever else was answered, a name that is missing, empty or a
    reserved word makes the wizard give up: no record is returned and
    nothing is stored. *)
Theorem connectionWizard_rejects_name (host : Host) (w : World) :
  truthy (showInputBox host Placeholders.connectionName) = false
  ∨ nullish (showInputBox host Placeholders.connectionName) "" ∈ reservedWords host ->
  ∃ w', connectionWizard host w = (Ok None, w') ∧ aborted w w'.
Proof.
  intros Hname. unfold connectionWizard.
  apply required_abort. intros url. cbv zeta.
  destruct (String.eqb _ (UserNamePassword _));
    [|destruct (String.eqb _ (ClientIdSecret _));
      [|destruct (String.eqb _ (Azure _))]];
    repeat (apply required_abort; intros ?);
    by apply nameAndSave_bad_name.
Qed.

Lemma connectionWizard_rejects_name_witness :
  (truthy (showInputBox
             (Sample.host Sample.reservedInput Sample.pickPassword (Ok None) (Ok Sample.token1))
             Placeholders.connectionName) = false
   ∨ nullish (showInputBox
                (Sample.host Sample.reservedInput Sample.pickPassword (Ok None)
                   (Ok Sample.token1))
                Placeholders.connectionName) ""
     ∈ reservedWords
         (Sample.host Sample.reservedInput Sample.pickPassword (Ok None) (Ok Sample.token1)))
  ∧ ∃ w', connectionWizard
            (Sample.host Sample.reservedInput Sample.pickPassword (Ok None) (Ok Sample.token1))
            Sample.taken = (Ok None, w')
          ∧ aborted Sample.taken w'.
Proof.
  assert (H : truthy (showInputBox
                        (Sample.host Sample.reservedInput Sample.pickPassword (Ok None)
                           (Ok Sample.token1))
                        Placeholders.connectionName) = false
              ∨ nullish (showInputBox
                           (Sample.host Sample.reservedInput Sample.pickPassword (Ok None)
                              (Ok Sample.token1))
                           Placeholders.connectionName) ""
                ∈ reservedWords
                    (Sample.host Sample.reservedInput Sample.pickPassword (Ok None)
                       (Ok Sample.token1)))
    by (right; apply (bool_decide_unpack _); vm_compute; reflexivity).
  split; [exact H|].
  exact (connectionWizard_rejects_name
           (Sample.host Sample.reservedInput Sample.pickPassword (Ok None) (Ok Sample.token1))
           Sample.taken H).
Defined.

(** * Further properties of the flows *)

Lemma addConnectionFinally_slots host w :
  ∃ r w', addConnectionFinally host w = (r, w')
          ∧ connectionStore w' = connectionStore w
          ∧ connectionCurrentStore w' = connectionCurrentStore w.
Proof.
  unfold addConnectionFinally, reloadWorkspaceConnection, getEntityDefinitions,
    getWebResources.
  run.
  destruct (connectionCurrentStore w) eqn:Hc; simpl;
    repeat match goal with
      | |- context [requestData ?h ?q] => destruct (requestData h q); simpl
      end;
    eexists _, _; (split; [reflexivity|]); simpl; by rewrite ?Hc.
Qed.

Lemma addConnection_unfold host w o w1 :
  connectionWizard host w = (Ok o, w1) ->
  addConnection host w
  = tryFinally (tryCatch (addConnectionTry host o) (fun err => throw err))
      (addConnectionFinally host) w1.
Proof.
  intros H. unfold addConnection. unfold mbind at 1, M_bind at 1, bind at 1. by rewrite H.
Qed.

(** The slots after [addConnection], from the slots after its [try]
    block. *)
Lemma addConnection_slots host w o w1 r w2 :
  connectionWizard host w = (Ok o, w1) ->
  addConnectionTry host o w1 = (r, w2) ->
  connectionStore (addConnection host w).2 = connectionStore w2
  ∧ connectionCurrentStore (addConnection host w).2 = connectionCurrentStore w2.
Proof.
  intros Hwiz Htry. rewrite (addConnection_unfold host w o w1 Hwiz).
  unfold tryFinally, tryCatch. rewrite Htry.
  assert (Hcatch : (match r with
                    | Ok a => (Ok a, w2)
                    | Throw e => @throw (option IConnection) e w2
                    end) = (r, w2)) by (by destruct r).
  rewrite Hcatch.
  destruct (addConnectionFinally_slots host w2) as (r3 & w3 & -> & Hs & Hc).
  by destruct r3.
Qed.

Lemma saveConnection_slots c w w' :
  saveConnection c w = (Ok tt, w') ->
  connectionCurrentStore w' = connectionCurrentStore w
  ∧ (connectionStore w' = connectionStore w
     ∨ (getConnectionByName (connectionName c) w = (Ok None, w)
        ∧ connectionStore w' = Some (registry w ++ [c]))).
Proof.
  destruct (getConnectionByName_pure (connectionName c) w) as [[r|] Hr].
  - rewrite (saveConnection_conflict c r w Hr). intros [= <-]. split; [done|]. by left.
  - rewrite (saveConnection_fresh c w Hr). intros [= <-]. split; [done|]. by right.
Qed.

(** ** A first login that fails *)

(** When the login of a new connection fails, the workspace slot is as it
    was before the call, while the stored list is as the wizard left it:
    under a name that resolved to nothing it now ends with the draft,
    which holds no token. *)
Theorem addConnection_failed_login (host : Host) (w : World) (conn : IConnection)
    (w1 : World) (e : exn) (w2 : World) :
  connectionWizard host w = (Ok (Some conn), w1) ->
  connectInternal host (loginType conn) conn w1 = (Throw e, w2) ->
  connectionCurrentStore (addConnection host w).2 = connectionCurrentStore w
  ∧ connectionStore (addConnection host w).2 = connectionStore w1
  ∧ (getConnectionByName (connectionName conn) w = (Ok None, w) ->
     registry (addConnection host w).2 = registry w ++ [conn] ∧ tokenless conn).
Proof.
  intros Hwiz Hlogin.
  destruct (connectInternal_effect host (loginType conn) conn w1) as (r & ev & Hci & _).
  rewrite Hlogin in Hci. injection Hci as <- ->.
  assert (Htry : addConnectionTry host (Some conn) w1
                 = (Throw e, mkWorld (connectionStore w1) (connectionCurrentStore w1)
                               (log w1 ++ [ev]))).
  { unfold addConnectionTry. unfold mbind at 1, M_bind at 1, bind at 1. by rewrite Hlogin. }
  destruct (addConnection_slots host w _ w1 _ _ Hwiz Htry) as [Hs Hc]. simpl in Hs, Hc.
  pose proof Hwiz as Hinv.
  apply connectionWizard_inv in Hinv as [(c & [= <-] & Hsave & _ & _ & _ & _ & Htok)|[[=] _]].
  destruct (saveConnection_slots conn w w1 Hsave) as [Hcur Hstore].
  split; [congruence|]. split; [done|].
  intros Hfresh. split; [|done].
  rewrite (saveConnection_fresh conn w Hfresh) in Hsave. injection Hsave as <-.
  unfold registry at 1. by rewrite Hs.
Qed.

Lemma addConnection_failed_login_witness :
  connectionWizard
    (Sample.host Sample.devInput Sample.pickPassword (Ok None) (Throw (Failure "denied")))
    Sample.empty
  = (Ok (Some Sample.draftPassword),
     mkWorld (Some [Sample.draftPassword]) None [EvSaveInGlobal [Sample.draftPassword]])
  ∧ connectionCurrentStore
      (addConnection
         (Sample.host Sample.devInput Sample.pickPassword (Ok None) (Throw (Failure "denied")))
         Sample.empty).2 = None
  ∧ connectionStore
      (addConnection
         (Sample.host Sample.devInput Sample.pickPassword (Ok None) (Throw (Failure "denied")))
         Sample.empty).2 = Some [Sample.draftPassword].
Proof.
  split; [reflexivity|].
  destruct (addConnection_failed_login
              (Sample.host Sample.devInput Sample.pickPassword (Ok None)
                 (Throw (Failure "denied")))
              Sample.empty Sample.draftPassword
              (mkWorld (Some [Sample.draftPassword]) None [EvSaveInGlobal [Sample.draftPassword]])
              (Failure "denied") _ eq_refl eq_refl) as (Hc & Hs & _).
  split; [exact Hc | exact Hs].
Defined.

(** ** A first login that succeeds *)

(** When the login of a new connection succeeds, the workspace slot holds
    the draft with both token fields taken from the response, and the
    stored list is as the wizard left it: the tokens are not written to
    it. *)
Theorem addConnection_signed_in (host : Host) (w : World) (conn : IConnection)
    (w1 : World) (t : Token) (w2 : World) :
  connectionWizard host w = (Ok (Some conn), w1) ->
  connectInternal host (loginType conn) conn w1 = (Ok t, w2) ->
  connectionCurrentStore (addConnection host w).2
  = Some (setRefreshToken (setCurrentAccessToken conn (access_token t)) (refresh_token t))
  ∧ connectionStore (addConnection host w).2 = connectionStore w1
  ∧ (getConnectionByName (connectionName conn) w = (Ok None, w) ->
     registry (addConnection host w).2 = registry w ++ [conn] ∧ tokenless conn).
Proof.
  intros Hwiz Hlogin.
  destruct (connectInternal_effect host (loginType conn) conn w1) as (r & ev & Hci & _).
  rewrite Hlogin in Hci. injection Hci as <- ->.
  assert (Htry : ∃ w3, addConnectionTry host (Some conn) w1
                       = (Ok (Some (setRefreshToken
                                      (setCurrentAccessToken conn (access_token t))
                                      (refresh_token t))), w3)
                       ∧ connectionStore w3 = connectionStore w1
                       ∧ connectionCurrentStore w3
                         = Some (setRefreshToken
                                   (setCurrentAccessToken conn (access_token t))
                                   (refresh_token t))).
  { unfold addConnectionTry. unfold mbind at 1, M_bind at 1, bind at 1. rewrite Hlogin.
    run. by eexists. }
  destruct Htry as (w3 & Htry & Hs3 & Hc3).
  destruct (addConnection_slots host w _ w1 _ _ Hwiz Htry) as [Hs Hc].
  pose proof Hwiz as Hinv.
  apply connectionWizard_inv in Hinv as [(c & [= <-] & Hsave & _ & _ & _ & _ & Htok)|[[=] _]].
  split; [congruence|]. split; [congruence|].
  intros Hfresh. split; [|done].
  rewrite (saveConnection_fresh conn w Hfresh) in Hsave. injection Hsave as <-.
  unfold registry at 1. by rewrite Hs, Hs3.
Qed.

Lemma addConnection_signed_in_witness :
  connectionWizard
    (Sample.host Sample.devInput Sample.pickPassword (Ok None) (Ok Sample.token1))
    Sample.empty
  = (Ok (Some Sample.draftPassword),
     mkWorld (Some [Sample.draftPassword]) None [EvSaveInGlobal [Sample.draftPassword]])
  ∧ connectionCurrentStore
      (addConnection
         (Sample.host Sample.devInput Sample.pickPassword (Ok None) (Ok Sample.token1))
         Sample.empty).2 = Some Sample.signedIn
  ∧ connectionStore
      (addConnection
         (Sample.host Sample.devInput Sample.pickPassword (Ok None) (Ok Sample.token1))
         Sample.empty).2 = Some [Sample.draftPassword].
Proof.
  split; [reflexivity|].
  destruct (addConnection_signed_in
              (Sample.host Sample.devInput Sample.pickPassword (Ok None) (Ok Sample.token1))
              Sample.empty Sample.draftPassword
              (mkWorld (Some [Sample.draftPassword]) None [EvSaveInGlobal [Sample.draftPassword]])
              Sample.token1 _ eq_refl eq_refl) as (Hc & Hs & _).
  split; [exact Hc | exact Hs].
Defined.

(** ** A wizard that gives up *)

(** When the wizard returns no record and there is no current connection,
    [addConnection] returns [undefined] after the one message of the
    wizard: it calls no login, sends no request and writes no slot. *)
Theorem addConnection_gives_up (host : Host) (w w1 : World) :
  connectionWizard host w = (Ok None, w1) ->
  connectionCurrentStore w = None ->
  ∃ m, addConnection host w
       = (Ok None,
          mkWorld (connectionStore w) None
            (log w ++ [EvShowErrorMessage m;
                       EvExecuteCommand "dvdt.explorer.connections.refreshConnection"])).
Proof.
  intros Hwiz Hcur. rewrite (addConnection_unfold host w None w1 Hwiz).
  apply connectionWizard_inv in Hwiz as [(c & [=] & _)|[_ [m ->]]].
  exists m. unfold tryFinally, tryCatch, addConnectionTry, addConnectionFinally,
    reloadWorkspaceConnection.
  run. rewrite Hcur. simpl. by rewrite <- app_assoc.
Qed.

Lemma addConnection_gives_up_witness :
  connectionWizard
    (Sample.host Sample.noAnswer Sample.noAnswer (Ok None) (Ok Sample.token1)) Sample.taken
  = (Ok None,
     mkWorld (Some [Sample.test; Sample.dev]) None
       [EvShowErrorMessage ErrorMessages.dataverseEnvironmentUrlRequired])
  ∧ connectionCurrentStore Sample.taken = None
  ∧ ∃ m, addConnection
           (Sample.host Sample.noAnswer Sample.noAnswer (Ok None) (Ok Sample.token1))
           Sample.taken
         = (Ok None,
            mkWorld (connectionStore Sample.taken) None
              (log Sample.taken
               ++ [EvShowErrorMessage m;
                   EvExecuteCommand "dvdt.explorer.connections.refreshConnection"])).
Proof.
  split; [reflexivity|]. split; [reflexivity|].
  exact (addConnection_gives_up
           (Sample.host Sample.noAnswer Sample.noAnswer (Ok None) (Ok Sample.token1))
           Sample.taken _ eq_refl eq_refl).
Defined.

(** ** Sessions leave the stored list alone *)

(** The requests that end [connectTask] write neither slot. *)
Lemma connectTask_tail host (o : option IConnection) w :
  ∃ r w', (getEntityDefinitions host;; getWebResources host;;
           executeCommand "dvdt.explorer.connections.refreshConnection";; ret o) w
          = (r, w')
          ∧ connectionStore w' = connectionStore w
          ∧ connectionCurrentStore w' = connectionCurrentStore w
          ∧ (requestData host "EntityDefinitions" = Ok tt ->
             requestData host "webresourceset" = Ok tt -> r = Ok o)
          ∧ (∀ e, requestData host "EntityDefinitions" = Throw e -> r = Throw e).
Proof.
  unfold getEntityDefinitions, getWebResources. run.
  destruct (requestData host "EntityDefinitions") as [[]|e1]; simpl;
    [destruct (requestData host "webresourceset") as [[]|e2]; simpl|];
    eexists _, _; (split; [reflexivity|]); simpl; repeat split; try done;
    by intros e [= <-].
Qed.

Lemma connectTask_run host shared c w t w2 :
  connectInternal host (loginType c) c w = (Ok t, w2) ->
  connectTask host shared c w
  = match withUpn host c t with
    | Ok c2 =>
        (getEntityDefinitions host;; getWebResources host;;
         executeCommand "dvdt.explorer.connections.refreshConnection";;
         ret (Some (setRefreshToken c2 (refresh_token t))))
          (mkWorld (connectionStore w2) (Some (setRefreshToken c2 (refresh_token t)))
             (log w2 ++ [EvSaveInWorkspace (setRefreshToken c2 (refresh_token t))]))
    | Throw e => (Throw e, assigned shared (setCurrentAccessToken c (access_token t)) w2)
    end.
Proof.
  intros Hlogin. unfold connectTask, withUpn, assigned.
  unfold mbind at 1, M_bind at 1, bind at 1. rewrite Hlogin.
  destruct shared;
    (destruct (access_token t) as [tok|];
     [destruct (truthy (Some tok)); [destruct (decodeUpn host tok)|]|]);
    reflexivity.
Qed.

Lemma connectTask_store host shared c w :
  connectionStore (connectTask host shared c w).2 = connectionStore w.
Proof.
  destruct (connectInternal_effect host (loginType c) c w) as (r & ev & Hci & _).
  destruct r as [t|e].
  - rewrite (connectTask_run host shared c w t _ Hci).
    destruct (withUpn host c t) as [c2|e]; [|by destruct shared].
    match goal with
    | |- context [(_ ;; _) ?w3] =>
        destruct (connectTask_tail host (Some (setRefreshToken c2 (refresh_token t))) w3)
          as (r & w' & -> & Hs & _)
    end.
    exact Hs.
  - unfold connectTask. unfold mbind at 1, M_bind at 1, bind at 1. by rewrite Hci.
Qed.

Lemma reAuthenticate_store host c w :
  connectionStore (reAuthenticate host c w).2 = connectionStore w.
Proof.
  unfold reAuthenticate. unfold mbind at 1, M_bind at 1, bind at 1.
  rewrite refreshAttempt_run.
  assert (Hfb : ∀ o w1, connectionStore (fallbackAttempt host c o w1).2 = connectionStore w1
                        ∧ connectionCurrentStore (fallbackAttempt host c o w1).2
                          = connectionCurrentStore w1).
  { intros o w1. unfold fallbackAttempt. destruct o as [t|]; [done|]. cbv zeta.
    destruct (String.eqb _ (UserNamePassword _));
      [|destruct (String.eqb _ (ClientIdSecret _));
        [|destruct (String.eqb _ (MicrosoftLogin _));
          [|destruct (String.eqb _ (Azure _))]]];
      run;
      try match goal with
        | |- context [match ?o with Ok _ => _ | Throw _ => _ end] => destruct o
        end; done. }
  destruct (refreshToken c) as [tok|]; [destruct (truthy (Some tok))|];
    try destruct (loginWithRefreshToken _ _ _ _) as [o|e]; cbn -[fallbackAttempt];
    try done;
    match goal with
    | |- context [fallbackAttempt host c ?o ?w1] =>
        destruct (Hfb o w1) as [Hs _];
        destruct (fallbackAttempt host c o w1) as [[tokenResponse|e'] w2]; simpl in *; done
    end.
Qed.

(** Connecting to a stored connection, reauthenticating, forgetting the
    current connection and reloading it never write the stored list,
    however they end: a token that a session obtains lives in the
    workspace slot only. *)
Theorem sessions_leave_registry (host : Host) (label : string) (c : IConnection)
    (w : World) :
  connectionStore (connectToDataverse host label w).2 = connectionStore w
  ∧ connectionStore (reAuthenticate host c w).2 = connectionStore w
  ∧ connectionStore (forgetCurrentWorkspaceConnection w).2 = connectionStore w
  ∧ connectionStore (reloadWorkspaceConnection host w).2 = connectionStore w.
Proof.
  repeat split.
  - destruct (getConnectionByName_pure label w) as [[conn|] Hname].
    + rewrite (connectToDataverse_resolved host label w conn Hname).
      apply connectTask_store.
    + by rewrite (connectToDataverse_unknown_name label w Hname host).
  - apply reAuthenticate_store.
  - unfold forgetCurrentWorkspaceConnection. run. by destruct (connectionCurrentStore w).
  - unfold reloadWorkspaceConnection, getEntityDefinitions, getWebResources. run.
    destruct (connectionCurrentStore w); simpl;
      repeat match goal with
        | |- context [requestData ?h ?q] => destruct (requestData h q); simpl
        end; reflexivity.
Qed.

(** ** No token in the stored list *)

Lemma removedFirst_Forall (P : IConnection -> Prop) connName conns rest :
  removedFirst connName conns rest -> Forall P conns -> Forall P rest.
Proof.
  intros [l1 r l2 _ _|l _]; [|done].
  rewrite !Forall_app, Forall_cons. tauto.
Qed.

(** When the stored list holds no token, it holds none after a creation,
    a deletion of one connection or a deletion of all, however these end:
    what [addConnection] stores is the draft as it is before the login. *)
Theorem registry_stays_tokenless (host : Host) (label : string) (w : World) :
  Forall tokenless (registry w) ->
  Forall tokenless (registry (addConnection host w).2)
  ∧ Forall tokenless (registry (deleteConnection host label w).2)
  ∧ Forall tokenless (registry (deleteAllConnections host w).2).
Proof.
  intros Hw. repeat split.
  - destruct (connectionWizard_effect host w) as (o & w1 & Hwiz & _ & _).
    destruct (addConnectionTry_effect host o w1) as (r & w2 & evs & Htry & _ & _).
    destruct (addConnection_slots host w o w1 r w2 Hwiz Htry) as [Hs _].
    assert (Hs2 : connectionStore w2 = connectionStore w1).
    { revert Htry. unfold addConnectionTry. destruct o as [conn|]; [|by intros [= _ <-]].
      unfold mbind at 1, M_bind at 1, bind at 1.
      destruct (connectInternal_effect host (loginType conn) conn w1) as (r' & ev & -> & _).
      destruct r'; run; by intros [= _ <-]. }
    unfold registry at 1. rewrite Hs, Hs2.
    apply connectionWizard_inv in Hwiz as [(c & -> & Hsave & _ & _ & _ & _ & Htok)|[_ [m ->]]];
      [|exact Hw].
    destruct (saveConnection_slots c w w1 Hsave) as [_ [->|[_ ->]]]; [exact Hw|].
    apply Forall_app. split; [exact Hw|]. by apply Forall_singleton.
  - unfold deleteConnection, removeConnection. unfold mbind at 1, M_bind at 1, bind at 1.
    destruct (decide _); [|exact Hw].
    destruct (removeConnectionInternal_run label w) as (w' & -> & _ & Hreg). run.
    change (Forall tokenless (registry w')).
    destruct (connectionStore w) as [conns|] eqn:Hs; [|by subst].
    destruct Hreg as (rest & Hrm & Hstore).
    rewrite (removedFirst_registry _ _ _ _ Hrm Hstore).
    apply (removedFirst_Forall _ _ _ _ Hrm). unfold registry in Hw. by rewrite Hs in Hw.
  - unfold deleteAllConnections, removeAllConnections.
    unfold mbind at 1, M_bind at 1, bind at 1.
    destruct (decide _); [|exact Hw].
    unfold mbind at 1, M_bind at 1, bind at 1. unfold getFromGlobal at 1.
    destruct (connectionStore w) as [[|c rest]|] eqn:Hs.
    + simpl. run. unfold registry. simpl. by rewrite Hs.
    + destruct (forEach_remove (c :: rest) w Hs ltac:(done)) as (w1 & -> & _ & Hs1).
      run. unfold registry. simpl. by rewrite Hs1.
    + run. unfold registry. simpl. by rewrite Hs.
Qed.

Lemma registry_stays_tokenless_witness :
  Forall tokenless (registry Sample.empty)
  ∧ Forall tokenless
      (registry
         (addConnection
            (Sample.host Sample.devInput Sample.pickPassword (Ok None) (Ok Sample.token1))
            Sample.empty).2)
  ∧ registry
      (addConnection
         (Sample.host Sample.devInput Sample.pickPassword (Ok None) (Ok Sample.token1))
         Sample.empty).2 = [Sample.draftPassword].
Proof.
  assert (H : Forall tokenless (registry Sample.empty)) by constructor.
  split; [exact H|]. split; [|reflexivity].
  exact (proj1 (registry_stays_tokenless
                  (Sample.host Sample.devInput Sample.pickPassword (Ok None) (Ok Sample.token1))
                  "dev" Sample.empty H)).
Defined.

(** ** The Overlay after connecting to a stored connection *)

(** When the login for a stored connection returns a non-empty access
    token whose user name decodes, the workspace slot holds the resolved
    record with both token fields taken from the response and the stored
    user name replaced by the decoded one, which may be [undefined].  The
    slot is written before entity definitions and web resources are
    requested: it holds that record also when such a request fails and the
    call raises. *)
Theorem connectToDataverse_overlay (host : Host) (label : string) (w : World)
    (c : IConnection) (t : Token) (w2 : World) (tok : string) (upn : option string) :
  getConnectionByName label w = (Ok (Some c), w) ->
  connectInternal host (loginType c) c w = (Ok t, w2) ->
  access_token t = Some tok -> truthy (Some tok) = true ->
  decodeUpn host tok = Ok upn ->
  let connected :=
    setRefreshToken (setUserName (setCurrentAccessToken c (Some tok)) upn)
      (refresh_token t) in
  connectionCurrentStore (connectToDataverse host label w).2 = Some connected
  ∧ (requestData host "EntityDefinitions" = Ok tt ->
     requestData host "webresourceset" = Ok tt ->
     (connectToDataverse host label w).1 = Ok (Some connected))
  ∧ (∀ e, requestData host "EntityDefinitions" = Throw e ->
          (connectToDataverse host label w).1 = Throw e).
Proof.
  intros Hname Hlogin Htok Htruthy Hupn connected.
  rewrite (connectToDataverse_resolved host label w c Hname).
  rewrite (connectTask_run host (sharedWith label w) c w t w2 Hlogin).
  unfold withUpn. rewrite Htok, Htruthy, Hupn. fold connected.
  match goal with
  | |- context [(_ ;; _) ?w3] =>
      destruct (connectTask_tail host (Some connected) w3)
        as (r & w' & -> & _ & Hc & Hok & Hfail)
  end.
  simpl. split; [exact Hc|]. split; [exact Hok | exact Hfail].
Qed.

Lemma connectToDataverse_overlay_witness :
  getConnectionByName "dev" Sample.taken = (Ok (Some Sample.dev), Sample.taken)
  ∧ truthy (Some Sample.jwt) = true
  ∧ decodeUpn (Sample.host Sample.devInput Sample.pickPassword (Ok None) (Ok Sample.jwtToken))
      Sample.jwt = Ok (Some "u@example.com")
  ∧ connectionCurrentStore
      (connectToDataverse
         (Sample.host Sample.devInput Sample.pickPassword (Ok None) (Ok Sample.jwtToken))
         "dev" Sample.taken).2
    = Some (mkConnection "https://org.example.com" "UserNamePassword"
              (Some "u@example.com") (Some "p") None "dev" None
              (Some Sample.jwt) (Some "refresh-1")).
Proof.
  split; [reflexivity|]. split; [reflexivity|]. split; [reflexivity|].
  exact (proj1 (connectToDataverse_overlay
                  (Sample.host Sample.devInput Sample.pickPassword (Ok None)
                     (Ok Sample.jwtToken))
                  "dev" Sample.taken Sample.dev Sample.jwtToken
                  (mkWorld (Some [Sample.test; Sample.dev]) None
                     [EvLoginWithUsernamePassword "https://org.example.com"
                        (Some "u") (Some "p")])
                  Sample.jwt (Some "u@example.com")
                  eq_refl eq_refl eq_refl eq_refl eq_refl)).
Defined.

(** ** Forgetting the current connection *)

(** After the current connection was forgotten the workspace slot is
    empty and the stored list is as before; reading the current token
    then raises, and forgetting once more does nothing at all. *)
Theorem forgetCurrentWorkspaceConnection_clears (w : World) :
  connectionCurrentStore (forgetCurrentWorkspaceConnection w).2 = None
  ∧ connectionStore (forgetCurrentWorkspaceConnection w).2 = connectionStore w
  ∧ (∃ what, (getTokenFromCurrentConnection (forgetCurrentWorkspaceConnection w).2).1
             = Throw (TypeError what))
  ∧ forgetCurrentWorkspaceConnection (forgetCurrentWorkspaceConnection w).2
    = (Ok tt, (forgetCurrentWorkspaceConnection w).2)
  ∧ (connectionCurrentStore w = None -> forgetCurrentWorkspaceConnection w = (Ok tt, w)).
Proof.
  unfold forgetCurrentWorkspaceConnection, getTokenFromCurrentConnection. run.
  destruct (connectionCurrentStore w) eqn:Hc; simpl; rewrite ?Hc; simpl;
    repeat split; try done; by eexists.
Qed.

(** After a forget, a name resolves through the stored list only: the
    record that was current is found there without the tokens of the
    session. *)
Theorem forget_then_lookup (connName : string) (w : World) :
  (getConnectionByName connName (forgetCurrentWorkspaceConnection w).2).1
  = Ok (find (byName connName) (registry w)).
Proof.
  rewrite getConnectionByName_run.
  unfold forgetCurrentWorkspaceConnection, registry. run.
  destruct (connectionCurrentStore w) eqn:Hc; simpl; by rewrite ?Hc.
Qed.

(** ** The two dispatches on the login type *)

(** For a record of one of the four schemes (with distinct values of the
    enum), the fallback of a reauthentication makes the call that
    [connectInternal] makes for the record, with the same outcome. *)
Theorem fallback_agrees_with_connectInternal (host : Host) (c : IConnection) (s : Scheme)
    (w : World) :
  NoDup (allLoginTypes (loginTypes host)) ->
  loginType c = tagOf (loginTypes host) s ->
  fallbackAttempt host c None w = (Some <$> connectInternal host (loginType c) c) w
  ∧ connectInternal host (loginType c) c w
    = (strategyOutcome host c s,
       mkWorld (connectionStore w) (connectionCurrentStore w)
         (log w ++ [strategyCall host c s])).
Proof.
  intros Hnd Htag.
  assert (Hci : connectInternal host (loginType c) c w
                = (strategyOutcome host c s,
                   mkWorld (connectionStore w) (connectionCurrentStore w)
                     (log w ++ [strategyCall host c s]))).
  { pose proof Hnd as Hd. apply distinct_tags in Hd as (H1 & H2 & H3).
    unfold connectInternal. rewrite Htag.
    destruct s; simpl; switch_on_tags; run; reflexivity. }
  split; [|exact Hci].
  rewrite (fallbackAttempt_dispatch host c s w Hnd Htag).
  unfold fmap, M_fmap, bind. rewrite Hci. by destruct (strategyOutcome host c s).
Qed.

Lemma fallback_agrees_with_connectInternal_witness :
  NoDup (allLoginTypes (loginTypes (Sample.reauthHost (Ok None) (Ok Sample.token1))))
  ∧ loginType Sample.test
    = tagOf (loginTypes (Sample.reauthHost (Ok None) (Ok Sample.token1))) PlatformDelegated
  ∧ fallbackAttempt (Sample.reauthHost (Ok None) (Ok Sample.token1)) Sample.test None
      Sample.empty
    = (Ok (Some Sample.token1),
       mkWorld None None [EvLoginWithAzure "https://test.example.com"]).
Proof.
  assert (Hnd : NoDup (allLoginTypes (loginTypes (Sample.reauthHost (Ok None) (Ok Sample.token1)))))
    by (apply (bool_decide_unpack _); vm_compute; reflexivity).
  split; [exact Hnd|]. split; [reflexivity|].
  exact (proj1 (fallback_agrees_with_connectInternal
                  (Sample.reauthHost (Ok None) (Ok Sample.token1)) Sample.test
                  PlatformDelegated Sample.empty Hnd eq_refl)).
Defined.

(** Outside the four values the two dispatches part: [connectInternal]
    opens the login prompt, the fallback of a reauthentication calls
    nothing and obtains no token. *)
Theorem dispatches_differ_on_unknown_type (host : Host) (c : IConnection) (w : World) :
  loginType c ∉ allLoginTypes (loginTypes host) ->
  fallbackAttempt host c None w = (Ok None, w)
  ∧ connectInternal host (loginType c) c w
    = (loginWithPrompt host (customDataverseClientId host) false (environmentUrl c),
       mkWorld (connectionStore w) (connectionCurrentStore w)
         (log w ++ [EvLoginWithPrompt (customDataverseClientId host) (environmentUrl c)])).
Proof.
  intros Hun. split; [by apply fallbackAttempt_unknown|].
  revert Hun. unfold allLoginTypes. rewrite !not_elem_of_cons. intros (N1 & N2 & N3 & N4 & _).
  apply String.eqb_neq in N1, N2, N4.
  unfold connectInternal. rewrite N1, N2, N4. run. reflexivity.
Qed.

Lemma dispatches_differ_on_unknown_type_witness :
  (loginType Sample.untagged
     ∉ allLoginTypes (loginTypes (Sample.reauthHost (Ok None) (Ok Sample.token1))))
  ∧ fallbackAttempt (Sample.reauthHost (Ok None) (Ok Sample.token1)) Sample.untagged None
      Sample.empty = (Ok None, Sample.empty)
  ∧ (connectInternal (Sample.reauthHost (Ok None) (Ok Sample.token1)) ""
       Sample.untagged Sample.empty).1 = Ok Sample.token1.
Proof.
  assert (H : loginType Sample.untagged
              ∉ allLoginTypes (loginTypes (Sample.reauthHost (Ok None) (Ok Sample.token1))))
    by (apply (bool_decide_unpack _); vm_compute; reflexivity).
  split; [exact H|]. split; [|reflexivity].
  exact (proj1 (dispatches_differ_on_unknown_type
                  (Sample.reauthHost (Ok None) (Ok Sample.token1)) Sample.untagged
                  Sample.empty H)).
Defined.

(** ** The Overlay after a reauthentication *)

Lemma reAuthenticate_attempts_slots host c w :
  ∃ r w1, (refreshAttempt host c ≫= fallbackAttempt host c) w = (r, w1)
          ∧ connectionStore w1 = connectionStore w
          ∧ connectionCurrentStore w1 = connectionCurrentStore w.
Proof.
  unfold mbind at 1, M_bind at 1, bind at 1. rewrite refreshAttempt_run.
  assert (Hfb : ∀ o w1, ∃ r w2, fallbackAttempt host c o w1 = (r, w2)
                                ∧ connectionStore w2 = connectionStore w1
                                ∧ connectionCurrentStore w2 = connectionCurrentStore w1).
  { intros o w1. unfold fallbackAttempt. destruct o as [t|]; [by eexists _, _|]. cbv zeta.
    destruct (String.eqb _ (UserNamePassword _));
      [|destruct (String.eqb _ (ClientIdSecret _));
        [|destruct (String.eqb _ (MicrosoftLogin _));
          [|destruct (String.eqb _ (Azure _))]]];
      run;
      try match goal with
        | |- context [match ?o with Ok _ => _ | Throw _ => _ end] => destruct o
        end; by eexists _, _. }
  destruct (refreshToken c) as [tok|]; [destruct (truthy (Some tok))|];
    try destruct (loginWithRefreshToken _ _ _ _) as [o|e0];
    try (by eexists _, _);
    match goal with
    | |- context [fallbackAttempt host c ?o ?w1] =>
        destruct (Hfb o w1) as (r & w2 & -> & Hs & Hc); by eexists _, _
    end.
Qed.

(** A reauthentication that completes makes the record it was given the
    current connection, whatever the workspace slot held and also when no
    token was obtained; one that raises leaves the slot as it was. *)
Theorem reAuthenticate_overlay (host : Host) (c : IConnection) (w : World) :
  match (reAuthenticate host c w).1.1 with
  | Ok tokenResponse =>
      connectionCurrentStore (reAuthenticate host c w).2 = Some (storeTokens c tokenResponse)
      ∧ (tokenResponse = None -> connectionCurrentStore (reAuthenticate host c w).2 = Some c)
  | Throw _ =>
      connectionCurrentStore (reAuthenticate host c w).2 = connectionCurrentStore w
  end.
Proof.
  unfold reAuthenticate.
  destruct (reAuthenticate_attempts_slots host c w) as (r & w1 & -> & _ & Hc).
  destruct r as [o|e]; simpl; [|exact Hc].
  split; [done|]. by intros ->.
Qed.

(** On a decoding that raises, the call raises after the login, and the
    record that was resolved has its new access token only: the workspace
    slot shows it when the record is the slot's own, and is as before
    otherwise. *)
Lemma connectToDataverse_decode_raises host label w c t w2 tok e :
  getConnectionByName label w = (Ok (Some c), w) ->
  connectInternal host (loginType c) c w = (Ok t, w2) ->
  access_token t = Some tok -> truthy (Some tok) = true ->
  decodeUpn host tok = Throw e ->
  connectToDataverse host label w
  = (Throw e, assigned (sharedWith label w) (setCurrentAccessToken c (Some tok)) w2).
Proof.
  intros Hname Hlogin Htok Htruthy Hupn.
  rewrite (connectToDataverse_resolved host label w c Hname).
  rewrite (connectTask_run host (sharedWith label w) c w t w2 Hlogin).
  unfold withUpn. by rewrite Htok, Htruthy, Hupn.
Qed.

Example connectToDataverse_decode_raises_on_current :
  connectionCurrentStore
    (connectToDataverse
       (Sample.host Sample.devInput Sample.pickPassword (Ok None) (Ok Sample.token1))
       "dev" (mkWorld (Some [Sample.test]) (Some Sample.dev) [])).2
  = Some (mkConnection "https://org.example.com" "UserNamePassword" (Some "u") (Some "p")
            None "dev" None (Some "access-1") (Some "refresh-0")).
Proof. reflexivity. Qed.

(** * The steps the flows take *)




(** ** C8: the Registry write before the login *)


(** ** The steps of a reauthentication *)


